(** * radnn: experiment codes and the experiment configuration container

    A shallow embedding of [radnn/experiment/ml_experiment_config.py]:
    the experiment-code codec ([get_experiment_code],
    [get_experiment_code_ex], [experiment_number_and_variation],
    [experiment_code_and_timestamp]) and the dict-backed container
    [MLExperimentConfig] with [load] and [assign].

    Conventions of the embedding:
    - Python values are restricted to the scalars the codec handles:
      [None], [bool], [int] (unbounded, as [Z]) and [str].  Floats, lists
      and nested objects are outside the model, and so is CPython's limit on
      the number of digits of an [int]/[str] conversion.
    - A [dict] is a [gmap string value]; the insertion order of a Python
      dict is not modelled (only [__str__] and [save] observe it).
    - Exceptions are values of [pyerr]; pure functions return [result A],
      methods of the container run in the state-and-exception monad [M].
    - [os.path] is the POSIX flavour. *)

From Stdlib Require Import ZArith NArith Ascii String DecimalString DecimalN Lia.
From stdpp Require Import base option list strings gmap fin_maps.

#[local] Open Scope Z_scope.
#[local] Open Scope string_scope.

(** ** Exceptions and results *)

Inductive pyerr : Type :=
| Exception (msg : string)
| TypeError
| ValueError
| KeyError (key : string)
| IndexError
| AttributeError
| OSError
| JSONDecodeError.

Inductive result (A : Type) : Type :=
| Ok (a : A)
| Raise (e : pyerr).
Arguments Ok {A} a.
Arguments Raise {A} e.

Definition rbind {A B} (r : result A) (k : A -> result B) : result B :=
  match r with
  | Ok a => k a
  | Raise e => Raise e
  end.

Declare Scope result_scope.
Delimit Scope result_scope with result.
Notation "'let?' x := r 'in' k" := (rbind r (fun x => k))
  (at level 10, x pattern, r at level 100, k at level 200) : result_scope.
#[local] Open Scope result_scope.

(** The two messages of the generic [Exception]s raised by the codec, and
    the one raised by [load]. *)
Definition newline : string := String "010"%char "".

Definition msg_invalid_configuration : string :=
  "Invalid experiment configuration. Needs at least two keys 'Experiment.BaseName'"
  +:+ newline +:+ "and `Experiment.Number`.".

Definition msg_invalid_code_parts : string :=
  "Invalid experiment code parts. Needs a base name and a number.".

Definition msg_not_found (filename : string) : string :=
  "Experiment configuration file " +:+ filename +:+ " is not found.".

(** ** Values *)

Inductive value : Type :=
| VNone
| VBool (b : bool)
| VInt (n : Z)
| VStr (s : string).

#[global] Instance value_eq_dec : EqDecision value.
Proof. solve_decision. Defined.

Definition is_none (v : value) : bool :=
  match v with VNone => true | _ => false end.

(** ** Strings: the [str] methods the code calls *)

Module Str.

(** [s.split(sep)] for a one-character separator: never empty. *)
Fixpoint split (sep : ascii) (s : string) : list string :=
  match s with
  | "" => [""]
  | String c s' =>
      if Ascii.eqb c sep then "" :: split sep s'
      else match split sep s' with
           | h :: t => String c h :: t
           | [] => [String c ""]
           end
  end.

(** [re.split(sep, s, maxsplit)] for a one-character pattern and
    [maxsplit > 0]: at most [maxsplit] cuts, the rest is left whole. *)
Fixpoint split_max (sep : ascii) (s : string) (maxsplit : nat) {struct s}
  : list string :=
  match maxsplit with
  | O => [s]
  | S m =>
      match s with
      | "" => [""]
      | String c s' =>
          if Ascii.eqb c sep then "" :: split_max sep s' m
          else match split_max sep s' maxsplit with
               | h :: t => String c h :: t
               | [] => [String c ""]
               end
      end
  end.

(** [s.count(sep)] *)
Fixpoint count (sep : ascii) (s : string) : nat :=
  match s with
  | "" => O
  | String c s' => ((if Ascii.eqb c sep then 1 else 0) + count sep s')%nat
  end.

(** [all(f(c) for c in s)] *)
Fixpoint forallb (f : ascii -> bool) (s : string) : bool :=
  match s with
  | "" => true
  | String c s' => f c && forallb f s'
  end.

(** [sep in s] *)
Fixpoint contains (sep : ascii) (s : string) : bool :=
  match s with
  | "" => false
  | String c s' => Ascii.eqb c sep || contains sep s'
  end.

(** [s[i:j]], for [0 <= i <= j]. *)
Definition slice (i j : nat) (s : string) : string :=
  String.substring i (j - i) s.

(** [s.rfind(c)], [-1] when [c] does not occur. *)
Fixpoint rfind_from (c : ascii) (s : string) (pos : Z) (found : Z) : Z :=
  match s with
  | "" => found
  | String a s' =>
      rfind_from c s' (pos + 1) (if Ascii.eqb a c then pos else found)
  end.
Definition rfind (c : ascii) (s : string) : Z := rfind_from c s 0 (-1).

(** [s[:i]] and [s[i:]] for an index [i >= 0]. *)
Definition take (i : Z) (s : string) : string :=
  String.substring 0 (Z.to_nat i) s.
Definition drop (i : Z) (s : string) : string :=
  String.substring (Z.to_nat i) (String.length s) s.

Fixpoint zeros (n : nat) : string :=
  match n with
  | O => ""
  | S n' => String "0" (zeros n')
  end.

(** The blanks that [int()] strips from an ASCII string: tab, line feed,
    vertical tab, form feed, carriage return and space. *)
Definition is_space (c : ascii) : bool :=
  let n := N_of_ascii c in
  ((9 <=? n) && (n <=? 13) || (n =? 32))%N.

Fixpoint lstrip (s : string) : string :=
  match s with
  | "" => ""
  | String c s' => if is_space c then lstrip s' else s
  end.

Fixpoint rstrip (s : string) : string :=
  match s with
  | "" => ""
  | String c s' =>
      match rstrip s' with
      | "" => if is_space c then "" else String c ""
      | r => String c r
      end
  end.

Definition strip (s : string) : string := rstrip (lstrip s).

End Str.

(** ** Integers: [int(...)], [str(...)] and the [02d] format *)

Module PyInt.

Definition digit_of (c : ascii) : option N :=
  let n := N_of_ascii c in
  if ((48 <=? n) && (n <=? 57))%N then Some (n - 48)%N else None.

(** Decimal digits, a single underscore allowed between two digits. *)
Fixpoint parse_digits (s : string) (acc : N) (after_digit : bool)
  : option N :=
  match s with
  | "" => if after_digit then Some acc else None
  | String c s' =>
      match digit_of c with
      | Some d => parse_digits s' (10 * acc + d)%N true
      | None =>
          if Ascii.eqb c "_" && after_digit
          then match s' with
               | "" => None
               | _ => parse_digits s' acc false
               end
          else None
      end
  end.

(** [int(s)] for a [str]: surrounding whitespace, an optional sign, then
    the digits.  [None] stands for [ValueError]. *)
Definition of_str (s : string) : option Z :=
  match Str.strip s with
  | "" => None
  | String c r =>
      if Ascii.eqb c "-"
      then (fun n => - Z.of_N n) <$> parse_digits r 0 false
      else if Ascii.eqb c "+"
      then Z.of_N <$> parse_digits r 0 false
      else Z.of_N <$> parse_digits (String c r) 0 false
  end.

Definition digits (z : Z) : string :=
  NilZero.string_of_uint (N.to_uint (Z.abs_N z)).

Definition sign (z : Z) : string := if (z <? 0)%Z then "-" else "".

(** [format(z, "0{width}d")]: sign-aware zero padding. *)
Definition format_0d (width : nat) (z : Z) : string :=
  sign z +:+
  Str.zeros (width - String.length (sign z) - String.length (digits z))%nat
  +:+ digits z.

(** [str(z)] *)
Definition to_str (z : Z) : string := format_0d 0 z.

(** [c.isdigit()], for ASCII. *)
Definition is_digit (c : ascii) : bool :=
  match digit_of c with Some _ => true | None => false end.

(** [not c.isspace()] *)
Definition printable (c : ascii) : bool := negb (Str.is_space c).

(** Value of a digit sequence read after the accumulator [acc]. *)
Fixpoint value_after (d : Decimal.uint) (acc : N) : N :=
  match d with
  | Decimal.Nil => acc
  | Decimal.D0 l => value_after l (10 * acc + 0)
  | Decimal.D1 l => value_after l (10 * acc + 1)
  | Decimal.D2 l => value_after l (10 * acc + 2)
  | Decimal.D3 l => value_after l (10 * acc + 3)
  | Decimal.D4 l => value_after l (10 * acc + 4)
  | Decimal.D5 l => value_after l (10 * acc + 5)
  | Decimal.D6 l => value_after l (10 * acc + 6)
  | Decimal.D7 l => value_after l (10 * acc + 7)
  | Decimal.D8 l => value_after l (10 * acc + 8)
  | Decimal.D9 l => value_after l (10 * acc + 9)
  end%N.

End PyInt.

(** [int(v)] *)
Definition py_int (v : value) : result Z :=
  match v with
  | VNone => Raise TypeError
  | VBool b => Ok (if b then 1 else 0)
  | VInt n => Ok n
  | VStr s => match PyInt.of_str s with
              | Some n => Ok n
              | None => Raise ValueError
              end
  end.

(** [str(v)], also what an f-string field [{v}] renders. *)
Definition py_str (v : value) : string :=
  match v with
  | VNone => "None"
  | VBool b => if b then "True" else "False"
  | VInt n => PyInt.to_str n
  | VStr s => s
  end.

(** [a + b] *)
Definition py_add (a b : value) : result value :=
  match a, b with
  | VStr x, VStr y => Ok (VStr (x +:+ y))
  | VInt x, VInt y => Ok (VInt (x + y))
  | VInt x, VBool y => Ok (VInt (x + if y then 1 else 0))
  | VBool x, VInt y => Ok (VInt ((if x then 1 else 0) + y))
  | VBool x, VBool y => Ok (VInt ((if x then 1 else 0) + if y then 1 else 0))
  | _, _ => Raise TypeError
  end.

(** [l[i]] *)
Definition list_getitem {A} (l : list A) (i : nat) : result A :=
  match l !! i with
  | Some x => Ok x
  | None => Raise IndexError
  end.

(** ** The codec *)

Definition K_BaseName : string := "Experiment.BaseName".
Definition K_Number : string := "Experiment.Number".
Definition K_Variation : string := "Experiment.Variation".
Definition K_FoldNumber : string := "Experiment.FoldNumber".

(** [config_dict[key]] *)
Definition dict_getitem (d : gmap string value) (key : string) : result value :=
  match d !! key with
  | Some v => Ok v
  | None => Raise (KeyError key)
  end.

(** [key in config_dict] *)
Definition dict_contains (d : gmap string value) (key : string) : bool :=
  bool_decide (is_Some (d !! key)).

Definition get_experiment_code (config_dict : gmap string value)
  : result string :=
  if dict_contains config_dict K_BaseName && dict_contains config_dict K_Number
  then
    let? sBaseName := dict_getitem config_dict K_BaseName in
    let? vNumber := dict_getitem config_dict K_Number in
    let? nNumber := py_int vNumber in
    let? sVariation :=
      (if dict_contains config_dict K_Variation
       then let? v := dict_getitem config_dict K_Variation in Ok (Some (py_str v))
       else Ok None) in
    let? nFoldNumber :=
      (if dict_contains config_dict K_FoldNumber
       then let? v := dict_getitem config_dict K_FoldNumber in
            let? n := py_int v in Ok (Some n)
       else Ok None) in
    let sCode := py_str sBaseName +:+ "_" +:+ PyInt.format_0d 2 nNumber in
    let sCode := match sVariation with
                 | Some v => sCode +:+ "." +:+ v
                 | None => sCode
                 end in
    let sCode := match nFoldNumber with
                 | Some n => sCode +:+ "-" +:+ PyInt.format_0d 2 n
                 | None => sCode
                 end in
    Ok sCode
  else Raise (Exception msg_invalid_configuration).

Definition get_experiment_code_ex
  (base_name number variation fold_number : value) : result string :=
  if negb (is_none base_name) && negb (is_none number)
  then
    let? nNumber := py_int number in
    let sVariation :=
      if negb (is_none variation) then Some (py_str variation) else None in
    let? nFoldNumber :=
      (if negb (is_none fold_number)
       then let? n := py_int fold_number in Ok (Some n)
       else Ok None) in
    let sCode := py_str base_name +:+ "_" +:+ PyInt.format_0d 2 nNumber in
    let sCode := match sVariation with
                 | Some v => sCode +:+ "." +:+ v
                 | None => sCode
                 end in
    let sCode := match nFoldNumber with
                 | Some n => sCode +:+ "-" +:+ PyInt.format_0d 2 n
                 | None => sCode
                 end in
    Ok sCode
  else Raise (Exception msg_invalid_code_parts).

Definition experiment_number_and_variation (experiment_code : value)
  : result (Z * option string) :=
  match experiment_code with
  | VInt n => Ok (n, None)
  | VStr s =>
      let sParts := Str.split "." s in
      let? s0 := list_getitem sParts 0 in
      let? nNumber := py_int (VStr s0) in
      if decide (1 < length sParts)%nat
      then let? s1 := list_getitem sParts 1 in Ok (nNumber, Some s1)
      else Ok (nNumber, None)
  | _ => Raise AttributeError
  end.

(** ** [os.path] (POSIX) *)

Module os_path.

Fixpoint all_sep (s : string) : bool :=
  match s with
  | "" => true
  | String c s' => Ascii.eqb c "/" && all_sep s'
  end.

(** [head.rstrip('/')] *)
Fixpoint rstrip_sep (s : string) : string :=
  match s with
  | "" => ""
  | String c s' =>
      match rstrip_sep s' with
      | "" => if Ascii.eqb c "/" then "" else String c ""
      | r => String c r
      end
  end.

(** [posixpath.split(p)]: cut after the last ['/']; the head loses its
    trailing slashes unless it consists of slashes only. *)
Definition split (p : string) : string * string :=
  let i := Str.rfind "/" p + 1 in
  let head := Str.take i p in
  let tail := Str.drop i p in
  (if all_sep head then head else rstrip_sep head, tail).

(** The loop of [genericpath._splitext]: is there a character other than
    the extension separator in [p[filenameIndex:dotIndex]]? *)
Fixpoint has_non_dot (s : string) : bool :=
  match s with
  | "" => false
  | String c s' => negb (Ascii.eqb c ".") || has_non_dot s'
  end.

(** [posixpath.splitext(p)]: the extension starts at the last ['.'] of the
    last component, leading dots of that component not counting. *)
Definition splitext (p : string) : string * string :=
  let sepIndex := Str.rfind "/" p in
  let dotIndex := Str.rfind "." p in
  if (sepIndex <? dotIndex)%Z
     && has_non_dot (Str.slice (Z.to_nat (sepIndex + 1)) (Z.to_nat dotIndex) p)
  then (Str.take dotIndex p, Str.drop dotIndex p)
  else (p, "").

End os_path.

(** ** [datetime] *)

Record datetime : Type := mkDatetime {
  year : Z; month : Z; day : Z; hour : Z; minute : Z; second : Z
}.

Module Datetime.

Definition is_leap (y : Z) : bool :=
  ((y mod 4 =? 0) && (negb (y mod 100 =? 0) || (y mod 400 =? 0)))%Z.

Definition days_in_month (y m : Z) : Z :=
  if (m =? 2)%Z then (if is_leap y then 29 else 28)
  else if ((m =? 4) || (m =? 6) || (m =? 9) || (m =? 11))%Z then 30
  else 31.

(** A field of exactly [String.length s] decimal digits. *)
Fixpoint field (s : string) (acc : Z) : option Z :=
  match s with
  | "" => Some acc
  | String c s' =>
      match PyInt.digit_of c with
      | Some d => field s' (10 * acc + Z.of_N d)
      | None => None
      end
  end.

Definition exact_field (width : nat) (s : string) : option Z :=
  if decide (String.length s = width) then field s 0 else None.

Definition check (d : datetime) : result datetime :=
  if ((1 <=? year d) && (year d <=? 9999)
      && (1 <=? month d) && (month d <=? 12)
      && (1 <=? day d) && (day d <=? days_in_month (year d) (month d))
      && (hour d <=? 23) && (minute d <=? 59) && (second d <=? 59))%Z
  then Ok d else Raise ValueError.

(** The fragment of [datetime.fromisoformat] (CPython 3.11 and later)
    that [experiment_code_and_timestamp] relies on: a date written
    [YYYYMMDD] or [YYYY-MM-DD], one separator character, and a time
    written [HH:MM:SS].  The other ISO 8601 shapes the library accepts
    (week dates, fractions of a second, offsets, shorter times) are not
    part of this fragment and are reported as [ValueError] here. *)
Definition fromisoformat (s : string) : result datetime :=
  let extended := bool_decide (Str.slice 4 5 s = "-") in
  let date_len := if extended then 10%nat else 8%nat in
  let sDate := Str.slice 0 date_len s in
  let sTime := Str.slice (date_len + 1) (String.length s) s in
  let fields :=
    if extended
    then (exact_field 4 (Str.slice 0 4 sDate),
          if bool_decide (Str.slice 7 8 sDate = "-")
          then exact_field 2 (Str.slice 5 7 sDate) else None,
          exact_field 2 (Str.slice 8 10 sDate))
    else (exact_field 4 (Str.slice 0 4 sDate),
          exact_field 2 (Str.slice 4 6 sDate),
          exact_field 2 (Str.slice 6 8 sDate)) in
  if bool_decide (String.length sTime = 8%nat
                  /\ Str.slice 2 3 sTime = ":" /\ Str.slice 5 6 sTime = ":"
                  /\ String.length s = (date_len + 9)%nat)
  then
    match fields, exact_field 2 (Str.slice 0 2 sTime),
          exact_field 2 (Str.slice 3 5 sTime),
          exact_field 2 (Str.slice 6 8 sTime) with
    | (Some y, Some m, Some d), Some hh, Some mm, Some ss =>
        check (mkDatetime y m d hh mm ss)
    | _, _, _, _ => Raise ValueError
    end
  else Raise ValueError.

End Datetime.

(** [experiment_code_and_timestamp], over the library's parser. *)
Section Timestamp.

Variable fromisoformat : string -> result datetime.

Definition experiment_code_and_timestamp (filename : string)
  : result (string * datetime) :=
  let sName := fst (os_path.splitext (snd (os_path.split filename))) in
  let sParts := Str.split_max "_" sName 2 in
  let? p0 := list_getitem sParts 0 in
  let? p1 := list_getitem sParts 1 in
  let sISODate :=
    p0 +:+ "T" +:+ Str.slice 0 2 p1 +:+ ":" +:+ Str.slice 2 4 p1
       +:+ ":" +:+ Str.slice 4 6 p1 in
  let? sExperimentCode := list_getitem sParts 2 in
  let? dRunTimestamp := fromisoformat sISODate in
  Ok (sExperimentCode, dRunTimestamp).

End Timestamp.

(** ** The container [MLExperimentConfig] *)

(** What is on disk at a path. *)
Inductive node : Type :=
| RegularFile (text : string)
| Directory.

(** What [json.loads] returns: a dict, or anything else. *)
Inductive json : Type :=
| JObject (d : gmap string value)
| JOther.

(** The collaborators of [load]: the file system and [json.loads]. *)
Class Env : Type := {
  fs : gmap string node;
  json_loads : string -> result json
}.

Module MLExperimentConfig.

(** The object: the dict it extends and its [filename] attribute. *)
Record t : Type := mk {
  items : gmap string value;
  filename : option string
}.

(** Methods: a result and the object as the call leaves it, also when
    the call raises. *)
Definition M (A : Type) : Type := t -> result A * t.

Definition ret {A} (a : A) : M A := fun self => (Ok a, self).

Definition bind {A B} (m : M A) (k : A -> M B) : M B :=
  fun self =>
    match m self with
    | (Ok a, self') => k a self'
    | (Raise e, self') => (Raise e, self')
    end.

Definition raise {A} (e : pyerr) : M A := fun self => (Raise e, self).

Definition lift {A} (r : result A) : M A := fun self => (r, self).

Declare Scope method_scope.
Delimit Scope method_scope with method.
Notation "x <- m ;; k" := (bind m (fun x => k))
  (at level 100, m at next level, right associativity) : method_scope.
Notation "m ;; k" := (bind m (fun _ => k))
  (at level 100, right associativity) : method_scope.
#[local] Open Scope method_scope.

(** [self[key]] *)
Definition getitem (key : string) : M value :=
  fun self => (dict_getitem (items self) key, self).

(** [self[key] = v] *)
Definition setitem (key : string) (v : value) : M unit :=
  fun self => (Ok tt, mk (<[key := v]> (items self)) (filename self)).

(** [self.filename] *)
Definition get_filename : M (option string) :=
  fun self => (Ok (filename self), self).

(** [self.filename = f] *)
Definition set_filename (f : option string) : M unit :=
  fun self => (Ok tt, mk (items self) f).

(** [return self] *)
Definition return_self : M t := fun self => (Ok self, self).

Definition when (b : bool) (m : M unit) : M unit :=
  if b then m else ret tt.

Fixpoint for_each {A} (l : list A) (body : A -> M unit) : M unit :=
  match l with
  | [] => ret tt
  | x :: l' => body x ;; for_each l' body
  end.

(** [for sKey in d.keys(): self[sKey] = d[sKey]] *)
Definition copy_keys (d : gmap string value) : M unit :=
  for_each (map_to_list d).*1
    (fun sKey => v <- lift (dict_getitem d sKey) ;; setitem sKey v).

(** The methods a specialised configuration may override. *)
Class Hooks : Type := { setDefaults : M unit }.

(** [setDefaults] of the base class: [pass]. *)
Definition base : Hooks := {| setDefaults := ret tt |}.

(** The [experiment_code] property. *)
Definition experiment_code : M string :=
  fun self => (get_experiment_code (items self), self).

Section Methods.
Context {env : Env} {hooks : Hooks}.

(** [open(filename).read()] *)
Definition read_file (path : string) : M string :=
  match fs !! path with
  | Some (RegularFile text) => ret text
  | Some Directory => raise OSError
  | None => raise OSError
  end.

Definition load (filename : option string) (must_exist : bool) : M t :=
  filename <- match filename with
              | None => get_filename
              | Some f => ret (Some f)
              end ;;
  match filename with
  | None => raise TypeError
  | Some path =>
      (if bool_decide (is_Some (fs !! path))
       then
         sConfig <- read_file path ;;
         setDefaults ;;
         dConfigDict <- lift (json_loads sConfig) ;;
         match dConfigDict with
         | JObject d => copy_keys d
         | JOther => raise AttributeError
         end
       else
         if must_exist
         then raise (Exception (msg_not_found path))
         else ret tt) ;;
      return_self
  end.

Definition assign (config_dict : gmap string value) : M t :=
  copy_keys config_dict ;;
  b <- getitem K_BaseName ;;
  when (is_none b && dict_contains config_dict "ModelName")
    (v <- lift (dict_getitem config_dict "ModelName") ;;
     setitem K_BaseName v) ;;
  when (dict_contains config_dict "DatasetName")
    (cur <- getitem K_BaseName ;;
     d <- lift (dict_getitem config_dict "DatasetName") ;;
     suffix <- lift (py_add (VStr "_") d) ;;
     new <- lift (py_add cur suffix) ;;
     setitem K_BaseName new) ;;
  return_self.

(** [__init__], with [None] for every omitted argument. *)
Definition init (filename : option string)
  (base_name number variation fold_number : value)
  (hyperparams : option (gmap string value)) : M unit :=
  setitem K_BaseName base_name ;;
  set_filename filename ;;
  f <- get_filename ;;
  match f with
  | Some _ => load None false ;; ret tt
  | None => ret tt
  end ;;
  when (negb (is_none number)) (setitem K_Number number) ;;
  when (negb (is_none variation)) (setitem K_Variation variation) ;;
  when (negb (is_none fold_number)) (setitem K_FoldNumber fold_number) ;;
  match hyperparams with
  | Some h => assign h ;; ret tt
  | None => ret tt
  end.

(** [MLExperimentConfig(...)]: [__init__] on a fresh, empty dict. *)
Definition new (filename : option string)
  (base_name number variation fold_number : value)
  (hyperparams : option (gmap string value)) : result unit * t :=
  init filename base_name number variation fold_number hyperparams
    (mk ∅ None).

End Methods.

(** The object holds the key [Experiment.BaseName]; a method keeps it
    there, whether it returns or raises. *)
Definition has_base_name (self : t) : Prop :=
  is_Some (items self !! K_BaseName).

Definition keeps_base_name {A} (m : M A) : Prop :=
  forall self, has_base_name self -> has_base_name (snd (m self)).

End MLExperimentConfig.

(** An environment with no file at all, for containers built without one. *)
Definition no_files : Env :=
  {| fs := ∅; json_loads := fun _ => Raise JSONDecodeError |}.

(** ** The canonical code, as the specification writes it *)

(** Stated from the specification:
    [{base_name}_{number:02d}[.{variation}][-{fold_number:02d}]]. *)
Definition canonical_code (base_name : string) (number : Z)
  (variation : option string) (fold_number : option Z) : string :=
  base_name +:+ "_" +:+ PyInt.format_0d 2 number
  +:+ match variation with Some v => "." +:+ v | None => "" end
  +:+ match fold_number with
      | Some k => "-" +:+ PyInt.format_0d 2 k
      | None => ""
      end.

(** The part of a code that [experiment_number_and_variation] reads:
    [{number:02d}] or [{number:02d}.{variation}]. *)
Definition number_variation_portion (number : Z) (variation : option string)
  : string :=
  PyInt.format_0d 2 number
  +:+ match variation with Some v => "." +:+ v | None => "" end.

(** An optional [str] argument. *)
Definition optional_str (o : option string) : value :=
  match o with Some s => VStr s | None => VNone end.

(** One configuration file, and a stand-in for [json.loads] that knows its
    text. *)
Definition sample_text : string :=
  let q := String "034"%char "" in
  "{" +:+ q +:+ "Experiment.Number" +:+ q +:+ ": 3, "
      +:+ q +:+ "Epochs" +:+ q +:+ ": 10}".

Definition sample_files : Env :=
  {| fs := {[ "configs/Model_03.json" := RegularFile sample_text ]};
     json_loads := fun s =>
       if decide (s = sample_text)
       then Ok (JObject {[ K_Number := VInt 3; "Epochs" := VInt 10 ]})
       else Raise JSONDecodeError |}.

(** ** The legacy code *)

Definition msg_needs_model_name : string :=
  "Invalid experiment configuration. Needs at least the key 'ModelName'.".

(** ["_%02d" % v]: a number is required. *)
Definition py_percent_02d (v : value) : result string :=
  match v with
  | VInt n => Ok ("_" +:+ PyInt.format_0d 2 n)
  | VBool b => Ok ("_" +:+ PyInt.format_0d 2 (if b then 1 else 0))
  | VStr _ => Raise TypeError
  | VNone => Raise TypeError
  end.

Definition legacy_model_code (config_dict : gmap string value)
  : result value :=
  if dict_contains config_dict "ModelName"
  then
    let? sCode := dict_getitem config_dict "ModelName" in
    let? sCode :=
      (if dict_contains config_dict "ModelVariation"
       then let? v := dict_getitem config_dict "ModelVariation" in
            let? suffix := py_add (VStr "_") v in
            py_add sCode suffix
       else Ok sCode) in
    let? sCode :=
      (if dict_contains config_dict "ExperimentNumber"
       then let? n := dict_getitem config_dict "ExperimentNumber" in
            let? suffix := py_percent_02d n in
            py_add sCode (VStr suffix)
       else Ok sCode) in
    Ok sCode
  else Raise (Exception msg_needs_model_name).

(** The legacy format, as the code assembles it for string and integer
    fields: [{ModelName}[_{ModelVariation}][_{ExperimentNumber:02d}]]. *)
Definition legacy_code (model_name : string) (model_variation : option string)
  (experiment_number : option Z) : string :=
  model_name
  +:+ match model_variation with Some v => "_" +:+ v | None => "" end
  +:+ match experiment_number with
      | Some n => "_" +:+ PyInt.format_0d 2 n
      | None => ""
      end.

(** ** Saving, and the file-naming service *)

(** What [save] needs from outside: [json.dumps] with the arguments the
    code passes it, and how writing to a path that is not a directory goes.
    [writable path] holds when [open(path, "w")] and the write both
    succeed.  When they do not, [opens path] tells whether [open] itself
    succeeded: the file is then truncated and the failed write leaves
    [remains path text] in it (nothing, or the part of [text] that reached
    the disk). *)
Class Writer : Type := {
  json_dumps : gmap string value -> string;
  writable : string -> bool;
  opens : string -> bool;
  remains : string -> string -> string
}.

(** The folder object whose [file] method names a file in it. *)
Record FileStore : Type := { file : string -> string }.

(** The [fs] argument of [save_config] and [load_config]: a [FileSystem],
    of which the [configs] folder is taken, or a folder. *)
Inductive fs_argument : Type :=
| AFileSystem (configs : FileStore)
| AFolder (folder : FileStore).

Definition configs_of (fs : fs_argument) : FileStore :=
  match fs with
  | AFileSystem configs => configs
  | AFolder folder => folder
  end.

Module Persist.
Import MLExperimentConfig.

(** [save]: the outcome, the object and the disk as the call leaves them. *)
Definition save {writer : Writer} (filename : option string) (self : t)
  (disk : gmap string node) : result t * t * gmap string node :=
  let self :=
    match filename with
    | Some f => mk (items self) (Some f)
    | None => self
    end in
  let sJSON := json_dumps (items self) in
  match MLExperimentConfig.filename self with
  | None => (Raise TypeError, self, disk)
  | Some path =>
      match disk !! path with
      | Some Directory => (Raise OSError, self, disk)
      | _ =>
          if writable path
          then (Ok self, self, <[path := RegularFile sJSON]> disk)
          else if opens path
          then (Raise OSError, self,
                <[path := RegularFile (remains path sJSON)]> disk)
          else (Raise OSError, self, disk)
      end
  end.

Definition save_config {writer : Writer} (fs : fs_argument)
  (filename_only : option string) (self : t) (disk : gmap string node)
  : result t * t * gmap string node :=
  let fs := configs_of fs in
  match (match filename_only with
         | Some name => Ok name
         | None => get_experiment_code (items self)
         end) with
  | Raise e => (Raise e, self, disk)
  | Ok filename_only =>
      let sFileName := file fs (filename_only +:+ ".json") in
      save (Some sFileName) self disk
  end.

Definition load_config {env : Env} {hooks : Hooks} (fs : fs_argument)
  (filename_only : string) : M t :=
  let fs := configs_of fs in
  let sFileName := file fs (filename_only +:+ ".json") in
  load (Some sFileName) false.

(** The collaborators of [load] once the disk is [disk]. *)
Definition on_disk (env : Env) (disk : gmap string node) : Env :=
  {| fs := disk; json_loads := @json_loads env |}.

End Persist.

(** A folder that prefixes its name, and a writer for the examples. *)
Definition configs_folder : FileStore :=
  {| file := fun name => "configs/" +:+ name |}.

(** A saved document, with a writer and a reader that agree on it. *)
Definition saved_items : gmap string value :=
  {[ K_BaseName := VStr "Model"; K_Number := VInt 3 ]}.

Definition saved_text : string :=
  let q := String "034"%char "" in
  "{" +:+ q +:+ "Experiment.BaseName" +:+ q +:+ ": " +:+ q +:+ "Model" +:+ q
      +:+ ", " +:+ q +:+ "Experiment.Number" +:+ q +:+ ": 3}".

Definition sample_writer : Writer :=
  {| json_dumps := fun m => if decide (m = saved_items) then saved_text else "{}";
     writable := fun _ => true;
     opens := fun _ => true;
     remains := fun _ _ => "" |}.

Definition sample_reader : Env :=
  {| fs := ∅;
     json_loads := fun s =>
       if decide (s = saved_text) then Ok (JObject saved_items)
       else Raise JSONDecodeError |}.

(** ** Vocabulary of the further properties *)

(** The computation returns, or raises an exception that satisfies [P]. *)
Definition raises_only {A} (P : pyerr -> Prop) (r : result A) : Prop :=
  match r with
  | Ok _ => True
  | Raise e => P e
  end.

(** [if v is not None: m[key] = v] *)
Definition set_unless_none (key : string) (v : value)
  (m : gmap string value) : gmap string value :=
  if is_none v then m else <[key := v]> m.

(** The keys that the constructor sets from its [number], [variation] and
    [fold_number] arguments. *)
Definition set_arguments (number variation fold_number : value)
  (m : gmap string value) : gmap string value :=
  set_unless_none K_FoldNumber fold_number
    (set_unless_none K_Variation variation
       (set_unless_none K_Number number m)).

(** * Properties *)

(** ** Splitting *)

Section SplitFacts.
Variable sep : ascii.

Lemma split_nonempty s : Str.split sep s <> [].
Proof.
  destruct s as [|c s]; simpl; [discriminate|].
  destruct (Ascii.eqb c sep); [discriminate|].
  destruct (Str.split sep s); discriminate.
Qed.

Lemma split_without_sep s :
  Str.contains sep s = false -> Str.split sep s = [s].
Proof.
  induction s as [|c s IH]; simpl; [reflexivity|].
  destruct (Ascii.eqb c sep); simpl; [discriminate|].
  intros H. rewrite (IH H). reflexivity.
Qed.

Lemma split_at_first p r :
  Str.contains sep p = false ->
  Str.split sep (p +:+ String sep r) = p :: Str.split sep r.
Proof.
  induction p as [|c p IH]; simpl.
  - intros _. rewrite Ascii.eqb_refl. reflexivity.
  - destruct (Ascii.eqb c sep); simpl; [discriminate|].
    intros H. rewrite (IH H). reflexivity.
Qed.

Lemma split_max_nonempty s n : Str.split_max sep s n <> [].
Proof.
  destruct s as [|c s], n as [|n]; simpl; try discriminate.
  destruct (Ascii.eqb c sep); [discriminate|].
  destruct (Str.split_max sep s (S n)); discriminate.
Qed.

Lemma split_max_at_first p r n :
  Str.contains sep p = false ->
  Str.split_max sep (p +:+ String sep r) (S n) = p :: Str.split_max sep r n.
Proof.
  induction p as [|c p IH]; simpl.
  - intros _. rewrite Ascii.eqb_refl. reflexivity.
  - destruct (Ascii.eqb c sep); simpl; [discriminate|].
    intros H. rewrite (IH H). reflexivity.
Qed.

Lemma split_max_zero s : Str.split_max sep s 0 = [s].
Proof. destruct s; reflexivity. Qed.

(** A string in which [sep] occurs can be cut at its first occurrence. *)
Lemma cut_at_first s :
  (0 < Str.count sep s)%nat ->
  exists p r, s = p +:+ String sep r
              /\ Str.contains sep p = false
              /\ Str.count sep s = S (Str.count sep r).
Proof.
  induction s as [|c s IH]; simpl; [lia|].
  destruct (Ascii.eqb_spec c sep) as [->|Hne]; intros H.
  - exists "", s. repeat split.
  - destruct (IH H) as (p & r & -> & Hp & Hc).
    exists (String c p), r. repeat split; simpl; [|exact Hc].
    destruct (Ascii.eqb_spec c sep); [contradiction|exact Hp].
Qed.

Lemma count_contains s : Str.contains sep s = false <-> Str.count sep s = O.
Proof.
  induction s as [|c s IH]; simpl; [tauto|].
  destruct (Ascii.eqb c sep); simpl; [split; [discriminate|lia]|exact IH].
Qed.

End SplitFacts.

Lemma app_assoc_str (a b c : string) : (a +:+ b) +:+ c = a +:+ b +:+ c.
Proof.
  induction a as [|x a IH]; [reflexivity|].
  change (String x ((a +:+ b) +:+ c) = String x (a +:+ b +:+ c)).
  now rewrite IH.
Qed.

Lemma app_nil_l_str (s : string) : "" +:+ s = s.
Proof. reflexivity. Qed.

Lemma forallb_app f a b :
  Str.forallb f (a +:+ b) = Str.forallb f a && Str.forallb f b.
Proof.
  induction a as [|x a IH]; simpl; [reflexivity|].
  rewrite IH. now destruct (f x).
Qed.

(** ** [int(format(z, "0wd")) = z] *)

Module PyIntFacts.
Import PyInt.

Lemma parse_uint d : forall acc b,
  parse_digits (NilEmpty.string_of_uint d) acc b =
  match d with
  | Decimal.Nil => if b then Some acc else None
  | _ => Some (value_after d acc)
  end.
Proof.
  induction d; intros acc b; simpl; try reflexivity;
    rewrite IHd; destruct d; reflexivity.
Qed.

Lemma value_after_pos d : forall p,
  value_after d (Npos p) = Npos (Pos.of_uint_acc d p).
Proof.
  induction d; intros p; simpl; try reflexivity;
    rewrite <- IHd; f_equal; lia.
Qed.

Lemma value_after_zero d : value_after d 0 = N.of_uint d.
Proof.
  unfold N.of_uint.
  induction d; simpl; try reflexivity; try exact IHd;
    apply (value_after_pos d).
Qed.

Lemma parse_NilZero d b :
  parse_digits (NilZero.string_of_uint d) 0 b = Some (N.of_uint d).
Proof.
  destruct d; try reflexivity;
    unfold NilZero.string_of_uint; rewrite parse_uint, value_after_zero;
    reflexivity.
Qed.

Lemma parse_zeros k s b :
  parse_digits (Str.zeros k +:+ s) 0 b =
  parse_digits s 0 (match k with O => b | S _ => true end).
Proof.
  revert b. induction k as [|k IH]; intros b; simpl; [reflexivity|].
  rewrite IH. destruct k; reflexivity.
Qed.

Lemma parse_padded k z b :
  parse_digits (Str.zeros k +:+ digits z) 0 b = Some (Z.abs_N z).
Proof.
  rewrite parse_zeros. unfold digits. rewrite parse_NilZero.
  now rewrite DecimalN.Unsigned.of_to.
Qed.

Lemma uint_digits d : Str.forallb is_digit (NilEmpty.string_of_uint d) = true.
Proof. induction d; simpl; auto. Qed.

Lemma digits_are_digits z : Str.forallb is_digit (digits z) = true.
Proof.
  unfold digits, NilZero.string_of_uint.
  destruct (N.to_uint (Z.abs_N z)) eqn:E; try reflexivity;
    rewrite <- E; apply uint_digits.
Qed.

Lemma zeros_are_digits k : Str.forallb is_digit (Str.zeros k) = true.
Proof. induction k; simpl; auto. Qed.

Lemma digits_nonempty z : digits z <> "".
Proof.
  unfold digits, NilZero.string_of_uint.
  destruct (N.to_uint (Z.abs_N z)); discriminate.
Qed.

Lemma digit_printable c : is_digit c = true -> printable c = true.
Proof.
  unfold is_digit, digit_of, printable, Str.is_space.
  destruct (_ && _)%N eqn:E; [|discriminate]. intros _.
  apply andb_true_iff in E as [E1 E2].
  apply N.leb_le in E1, E2.
  apply negb_true_iff, orb_false_iff; split.
  - apply andb_false_iff; right; apply N.leb_gt; lia.
  - apply N.eqb_neq; lia.
Qed.

Lemma forallb_weaken (f g : ascii -> bool) s :
  (forall c, f c = true -> g c = true) ->
  Str.forallb f s = true -> Str.forallb g s = true.
Proof.
  intros Hfg. induction s as [|c s IH]; simpl; [reflexivity|].
  intros [H1 H2]%andb_true_iff. rewrite (Hfg _ H1), (IH H2). reflexivity.
Qed.

Lemma lstrip_printable s : Str.forallb printable s = true -> Str.lstrip s = s.
Proof.
  destruct s as [|c s]; simpl; [reflexivity|].
  unfold printable at 1. intros [H _]%andb_true_iff.
  apply negb_true_iff in H. now rewrite H.
Qed.

Lemma rstrip_printable s : Str.forallb printable s = true -> Str.rstrip s = s.
Proof.
  induction s as [|c s IH]; simpl; [reflexivity|].
  unfold printable at 1. intros [H Hs]%andb_true_iff.
  apply negb_true_iff in H. rewrite (IH Hs), H. now destruct s.
Qed.

Lemma strip_printable s : Str.forallb printable s = true -> Str.strip s = s.
Proof.
  intros H. unfold Str.strip. now rewrite (lstrip_printable _ H), rstrip_printable.
Qed.

Lemma format_printable w z : Str.forallb printable (format_0d w z) = true.
Proof.
  unfold format_0d. rewrite !forallb_app.
  rewrite (forallb_weaken _ _ _ digit_printable (zeros_are_digits _)).
  rewrite (forallb_weaken _ _ _ digit_printable (digits_are_digits z)).
  unfold sign. now destruct (z <? 0)%Z.
Qed.

(** Reading back a formatted integer gives the integer. *)
Lemma of_str_format w z : of_str (format_0d w z) = Some z.
Proof.
  unfold of_str. rewrite (strip_printable _ (format_printable w z)).
  unfold format_0d, sign.
  destruct (Z.ltb_spec z 0) as [Hneg|Hpos]; simpl.
  - rewrite app_nil_l_str, parse_padded. simpl. f_equal. lia.
  - rewrite app_nil_l_str.
    set (k := (w - 0 - String.length (digits z))%nat).
    destruct (Str.zeros k +:+ digits z) as [|c r] eqn:E.
    + exfalso. destruct k; simpl in E; [|discriminate].
      now apply (digits_nonempty z).
    + assert (Hd : is_digit c = true).
      { pose proof (forallb_app is_digit (Str.zeros k) (digits z)) as H.
        rewrite E, zeros_are_digits, digits_are_digits in H. simpl in H.
        now apply andb_true_iff in H as [H _]. }
      assert (Hc : Ascii.eqb c "-" = false /\ Ascii.eqb c "+" = false).
      { split; apply Ascii.eqb_neq; intros ->; discriminate. }
      destruct Hc as [-> ->].
      change (Z.of_N <$> parse_digits (String c r) 0 false = Some z).
      rewrite <- E, parse_padded. simpl. f_equal. lia.
Qed.

End PyIntFacts.

(** ** Dicts *)

Lemma dict_contains_Some (d : gmap string value) k v :
  d !! k = Some v -> dict_contains d k = true.
Proof. intros H. unfold dict_contains. apply bool_decide_eq_true. eauto. Qed.

Lemma dict_contains_None (d : gmap string value) k :
  d !! k = None -> dict_contains d k = false.
Proof.
  intros H. unfold dict_contains. apply bool_decide_eq_false.
  rewrite H. intros [? [=]].
Qed.

Lemma dict_getitem_Some (d : gmap string value) k v :
  d !! k = Some v -> dict_getitem d k = Ok v.
Proof. intros H. unfold dict_getitem. now rewrite H. Qed.

Lemma dict_contains_inv (d : gmap string value) k :
  dict_contains d k = true -> exists v, d !! k = Some v.
Proof. unfold dict_contains. intros [v H]%bool_decide_eq_true. eauto. Qed.

(** ** The container *)

Module ConfigFacts.
Import MLExperimentConfig.
#[local] Open Scope method_scope.

(** The loop that copies keys: every listed key takes the value it has
    in [d], every other key is left alone. *)
Lemma for_each_copy (d : gmap string value) (l : list string) : forall self,
  (forall k, k ∈ l -> is_Some (d !! k)) ->
  exists m',
    for_each l (fun sKey => v <- lift (dict_getitem d sKey) ;; setitem sKey v)
      self = (Ok tt, mk m' (filename self))
    /\ forall k, m' !! k = if decide (k ∈ l) then d !! k else items self !! k.
Proof.
  induction l as [|x l IH]; intros self Hl.
  - exists (items self). split; [now destruct self|].
    intros k. destruct (decide (k ∈ [])) as [H|_]; [|reflexivity].
    now apply elem_of_nil in H.
  - destruct (Hl x) as [v Hv]; [left|].
    destruct (IH (mk (<[x := v]> (items self)) (filename self))) as (m' & Hrun & Hm').
    { intros k Hk. apply Hl. now right. }
    exists m'. split.
    + simpl. unfold bind at 1. unfold bind at 1.
      unfold lift, setitem. rewrite (dict_getitem_Some _ _ _ Hv). exact Hrun.
    + intros k. rewrite Hm'. simpl.
      destruct (decide (k ∈ l)) as [Hin|Hnin].
      * rewrite decide_True; [reflexivity|now right].
      * destruct (decide (k = x)) as [->|Hne].
        -- rewrite decide_True; [|left]. now rewrite lookup_insert_eq.
        -- rewrite decide_False; [now rewrite lookup_insert_ne|].
           intros [?|?]%elem_of_cons; contradiction.
Qed.

Lemma copy_keys_spec (d : gmap string value) self :
  copy_keys d self = (Ok tt, mk (d ∪ items self) (filename self)).
Proof.
  unfold copy_keys.
  assert (Hkeys : forall k, k ∈ (map_to_list d).*1 <-> is_Some (d !! k)).
  { intros k. rewrite list_elem_of_fmap. split.
    - intros ([k' v] & -> & H%elem_of_map_to_list). eauto.
    - intros [v H]. exists (k, v). split; [reflexivity|].
      now apply elem_of_map_to_list. }
  destruct (for_each_copy d (map_to_list d).*1 self) as (m' & -> & Hm').
  { intros k. apply Hkeys. }
  do 2 f_equal. apply map_eq. intros k. rewrite Hm', lookup_union.
  destruct (decide (k ∈ (map_to_list d).*1)) as [Hin|Hnin].
  - apply Hkeys in Hin as [v ->]. now destruct (items self !! k).
  - destruct (d !! k) as [v|] eqn:E.
    + exfalso. apply Hnin, Hkeys. eauto.
    + now destruct (items self !! k).
Qed.

(** *** The key [Experiment.BaseName], once set, stays *)

Lemma keeps_ret {A} (a : A) : keeps_base_name (ret a).
Proof. intros self H. exact H. Qed.

Lemma keeps_raise {A} e : keeps_base_name (@raise A e).
Proof. intros self H. exact H. Qed.

Lemma keeps_lift {A} (r : result A) : keeps_base_name (lift r).
Proof. intros self H. exact H. Qed.

Lemma keeps_getitem k : keeps_base_name (getitem k).
Proof. intros self H. exact H. Qed.

Lemma keeps_get_filename : keeps_base_name get_filename.
Proof. intros self H. exact H. Qed.

Lemma keeps_set_filename f : keeps_base_name (set_filename f).
Proof. intros self H. exact H. Qed.

Lemma keeps_return_self : keeps_base_name return_self.
Proof. intros self H. exact H. Qed.

Lemma keeps_setitem k v : keeps_base_name (setitem k v).
Proof.
  intros self H. unfold has_base_name. simpl.
  destruct (decide (k = K_BaseName)) as [->|Hne].
  - rewrite lookup_insert_eq. eauto.
  - now rewrite lookup_insert_ne.
Qed.

Lemma keeps_bind {A B} (m : M A) (k : A -> M B) :
  keeps_base_name m -> (forall a, keeps_base_name (k a)) ->
  keeps_base_name (bind m k).
Proof.
  intros Hm Hk self H. unfold bind.
  specialize (Hm self H). destruct (m self) as [[a|e] self']; simpl in *.
  - now apply Hk.
  - exact Hm.
Qed.

Lemma keeps_when b m : keeps_base_name m -> keeps_base_name (when b m).
Proof. intros Hm. destruct b; [exact Hm|apply keeps_ret]. Qed.

Lemma keeps_for_each {A} (l : list A) body :
  (forall x, keeps_base_name (body x)) -> keeps_base_name (for_each l body).
Proof.
  intros Hb. induction l as [|x l IH]; simpl.
  - apply keeps_ret.
  - apply keeps_bind; [apply Hb|intros _; exact IH].
Qed.

Create HintDb keeps.
#[local] Hint Resolve keeps_ret keeps_raise keeps_lift keeps_getitem
  keeps_get_filename keeps_set_filename keeps_return_self keeps_setitem
  keeps_when : keeps.

Ltac keeps :=
  repeat first
    [ solve [auto with keeps]
    | apply keeps_bind; [|intros ?]
    | apply keeps_when
    | apply keeps_for_each; intros ?
    | match goal with
      | |- keeps_base_name (match ?x with _ => _ end) => destruct x
      | |- keeps_base_name (if ?x then _ else _) => destruct x
      end ].

Lemma keeps_copy_keys d : keeps_base_name (copy_keys d).
Proof. unfold copy_keys. keeps. Qed.

Lemma keeps_assign d : keeps_base_name (assign d).
Proof. unfold assign. pose proof (keeps_copy_keys d). keeps. Qed.

Lemma keeps_load {env : Env} f must_exist :
  keeps_base_name (load (hooks := base) f must_exist).
Proof.
  unfold load, read_file. pose proof keeps_copy_keys.
  assert (keeps_base_name (@setDefaults base)) by apply keeps_ret.
  keeps.
Qed.

(** Whatever the arguments, and whether or not it raises, [__init__] of
    the base class leaves an object holding [Experiment.BaseName]. *)
Lemma init_has_base_name {env : Env} f base_name number variation fold_number
  hyperparams self :
  has_base_name
    (snd (init (hooks := base) f base_name number variation fold_number
            hyperparams self)).
Proof.
  unfold init. unfold bind at 1. simpl.
  match goal with
  | |- has_base_name (snd (?m ?s)) =>
      assert (Hk : keeps_base_name m); [|apply Hk]
  end.
  - pose proof keeps_load. pose proof keeps_assign. keeps.
  - unfold has_base_name. simpl. rewrite lookup_insert_eq. eauto.
Qed.

End ConfigFacts.

(** ** Characters of a formatted integer *)

Lemma app_nil_r_str (s : string) : s +:+ "" = s.
Proof.
  induction s as [|c s IH]; [reflexivity|].
  change (String c (s +:+ "") = String c s). now rewrite IH.
Qed.

Lemma contains_forallb sep s :
  Str.forallb (fun c => negb (Ascii.eqb c sep)) s = true ->
  Str.contains sep s = false.
Proof.
  induction s as [|c s IH]; simpl; [reflexivity|].
  intros [H1 H2]%andb_true_iff. apply negb_true_iff in H1.
  now rewrite H1, (IH H2).
Qed.

Lemma format_without_dot w z : Str.contains "." (PyInt.format_0d w z) = false.
Proof.
  apply contains_forallb. unfold PyInt.format_0d. rewrite !forallb_app.
  assert (Hd : forall c, PyInt.is_digit c = true ->
                         negb (Ascii.eqb c ".") = true).
  { intros c Hc. apply negb_true_iff, Ascii.eqb_neq. intros ->. discriminate. }
  rewrite (PyIntFacts.forallb_weaken _ _ _ Hd (PyIntFacts.zeros_are_digits _)).
  rewrite (PyIntFacts.forallb_weaken _ _ _ Hd (PyIntFacts.digits_are_digits z)).
  unfold PyInt.sign. now destruct (z <? 0)%Z.
Qed.

Lemma py_int_format w z : py_int (VStr (PyInt.format_0d w z)) = Ok z.
Proof. unfold py_int. now rewrite PyIntFacts.of_str_format. Qed.

Ltac norm_app := rewrite ?app_assoc_str, ?app_nil_l_str, ?app_nil_r_str.

(** ** Claims on the codec *)

(** A container that lacks the key [Experiment.BaseName] or the key
    [Experiment.Number] makes [experiment_code] raise the "Invalid
    experiment configuration" exception and is left as it was. *)
Lemma experiment_code_missing_key (self : MLExperimentConfig.t) :
  MLExperimentConfig.items self !! K_BaseName = None
  \/ MLExperimentConfig.items self !! K_Number = None ->
  MLExperimentConfig.experiment_code self
  = (Raise (Exception msg_invalid_configuration), self).
Proof.
  intros H. unfold MLExperimentConfig.experiment_code, get_experiment_code.
  destruct H as [H|H]; rewrite (dict_contains_None _ _ H).
  - reflexivity.
  - now rewrite andb_false_r.
Qed.

(** C1 (code bug): the claim asks [experiment_code] to fail whenever the
    base name is absent, a null [Experiment.BaseName] included.  The
    container built with [base_name] omitted and [number=5] holds a null
    [Experiment.BaseName], yet [experiment_code] returns the string
    ["None_05"]; [get_experiment_code_ex], on the same base name and
    number, raises. *)
Theorem C1_null_base_name_returns_string :
  let built :=
    MLExperimentConfig.new (env := no_files) (hooks := MLExperimentConfig.base)
      None VNone (VInt 5) VNone VNone None in
  fst built = Ok tt
  /\ MLExperimentConfig.items (snd built) !! K_BaseName = Some VNone
  /\ fst (MLExperimentConfig.experiment_code (snd built)) = Ok "None_05"
  /\ get_experiment_code_ex VNone (VInt 5) VNone VNone
     = Raise (Exception msg_invalid_code_parts).
Proof. vm_compute. repeat split. Qed.

(** C2 (as amended): an [int] is returned as it is with no variation; a
    string without ['.'] gives its integer parse and no variation; a string
    with a ['.'] gives the integer parse of what precedes the first ['.']
    and, as variation, what lies between the first ['.'] and the second
    one (or the end of the string when there is no second one). *)
Theorem C2_number_and_variation :
  (forall n, experiment_number_and_variation (VInt n) = Ok (n, None))
  /\ (forall s, Str.contains "." s = false ->
        experiment_number_and_variation (VStr s)
        = let? n := py_int (VStr s) in Ok (n, None))
  /\ (forall p v rest,
        Str.contains "." p = false -> Str.contains "." v = false ->
        rest = "" \/ (exists r, rest = String "." r) ->
        experiment_number_and_variation (VStr (p +:+ "." +:+ v +:+ rest))
        = let? n := py_int (VStr p) in Ok (n, Some v))
  /\ experiment_number_and_variation (VStr "7") = Ok (7, None)
  /\ experiment_number_and_variation (VStr "7.alt") = Ok (7, Some "alt")
  /\ experiment_number_and_variation (VInt 7) = Ok (7, None).
Proof.
  split; [reflexivity|]. split; [|split; [|repeat split]].
  - intros s Hs. unfold experiment_number_and_variation.
    rewrite (split_without_sep _ _ Hs).
    cbn -[py_int]. now destruct (py_int (VStr s)).
  - intros p v rest Hp Hv Hrest. unfold experiment_number_and_variation.
    change (p +:+ "." +:+ v +:+ rest) with (p +:+ String "." (v +:+ rest)).
    rewrite (split_at_first _ _ _ Hp).
    assert (exists tl, Str.split "." (v +:+ rest) = v :: tl) as [tl ->].
    { destruct Hrest as [->|[r ->]].
      - rewrite app_nil_r_str, (split_without_sep _ _ Hv). eauto.
      - rewrite (split_at_first _ _ _ Hv). eauto. }
    cbn -[py_int]. now destruct (py_int (VStr p)).
Qed.

Lemma C2_number_and_variation_witness :
  experiment_number_and_variation (VStr ("12" +:+ "." +:+ "x" +:+ ".y.z"))
  = Ok (12, Some "x").
Proof.
  destruct C2_number_and_variation as (_ & _ & H & _).
  rewrite (H "12" "x" ".y.z"); [reflexivity|reflexivity|reflexivity|].
  right. exists "y.z". reflexivity.
Defined.

(** C2 as stated fails: with two dots, the variation returned is not the
    whole remainder after the first ['.']. *)
Lemma C2_second_dot_cuts_variation :
  experiment_number_and_variation (VStr "7.a.b") = Ok (7, Some "a")
  /\ experiment_number_and_variation (VStr "7.a.b") <> Ok (7, Some "a.b").
Proof. split; [reflexivity|discriminate]. Qed.

(** C3: for a base name and a number that are not [None], the number and
    the fold number (when given) being integer-coercible,
    [get_experiment_code_ex] returns the canonical code
    [{base_name}_{number:02d}[.{variation}][-{fold_number:02d}]]; the three
    examples of the specification evaluate as it says. *)
Theorem C3_encode_canonical :
  (forall base_name number variation fold_number n fold,
      base_name <> VNone ->
      py_int number = Ok n ->
      (fold_number = VNone /\ fold = None)
      \/ (exists k, py_int fold_number = Ok k /\ fold = Some k) ->
      get_experiment_code_ex base_name number variation fold_number
      = Ok (canonical_code (py_str base_name) n
              (if is_none variation then None else Some (py_str variation))
              fold))
  /\ get_experiment_code_ex (VStr "Model") (VInt 3) VNone VNone
     = Ok "Model_03"
  /\ get_experiment_code_ex (VStr "Model") (VInt 3) (VStr "b") VNone
     = Ok "Model_03.b"
  /\ get_experiment_code_ex (VStr "Model") (VInt 3) (VStr "b") (VInt 2)
     = Ok "Model_03.b-02".
Proof.
  split; [|repeat split].
  intros base_name number variation fold_number n fold Hb Hn Hf.
  assert (is_none base_name = false) as Eb by now destruct base_name.
  assert (is_none number = false) as En by now destruct number.
  unfold get_experiment_code_ex, canonical_code. rewrite Eb, En, Hn.
  cbn [negb andb rbind].
  destruct Hf as [[-> ->]|(k & Hk & ->)].
  - cbn [is_none negb rbind]. destruct (is_none variation); cbn [negb];
      f_equal; now norm_app.
  - assert (is_none fold_number = false) as Ef by now destruct fold_number.
    rewrite Ef, Hk. cbn [negb rbind]. destruct (is_none variation); cbn [negb];
      f_equal; now norm_app.
Qed.

Lemma C3_encode_canonical_witness :
  get_experiment_code_ex (VStr "Net") (VStr " 12 ") (VInt 4) (VBool true)
  = Ok "Net_12.4-01".
Proof.
  destruct C3_encode_canonical as (H & _).
  rewrite (H (VStr "Net") (VStr " 12 ") (VInt 4) (VBool true) 12 (Some 1));
    [reflexivity|discriminate|reflexivity|].
  right. exists 1. split; reflexivity.
Defined.

(** C4 (as amended): for every integer number and every variation that is
    absent or a string without ['.'], decoding the number/variation portion
    of the code that [get_experiment_code_ex] builds gives back the number
    and the variation. *)
Theorem C4_number_variation_roundtrip base_name number variation :
  (forall v, variation = Some v -> Str.contains "." v = false) ->
  get_experiment_code_ex (VStr base_name) (VInt number)
    (optional_str variation) VNone
  = Ok (base_name +:+ "_" +:+ number_variation_portion number variation)
  /\ experiment_number_and_variation
       (VStr (number_variation_portion number variation))
     = Ok (number, variation).
Proof.
  intros Hv. split.
  - unfold get_experiment_code_ex, number_variation_portion.
    destruct variation as [v|]; cbn; f_equal; now norm_app.
  - unfold experiment_number_and_variation, number_variation_portion.
    destruct variation as [v|].
    + change (PyInt.format_0d 2 number +:+ "." +:+ v)
        with (PyInt.format_0d 2 number +:+ String "." v).
      rewrite (split_at_first _ _ _ (format_without_dot 2 number)).
      rewrite (split_without_sep _ _ (Hv v eq_refl)).
      cbn -[py_int PyInt.format_0d]. now rewrite py_int_format.
    + rewrite app_nil_r_str.
      rewrite (split_without_sep _ _ (format_without_dot 2 number)).
      cbn -[py_int PyInt.format_0d]. now rewrite py_int_format.
Qed.

Lemma C4_number_variation_roundtrip_witness :
  experiment_number_and_variation (VStr "-7.alt-x") = Ok (-7, Some "alt-x").
Proof.
  refine (proj2 (C4_number_variation_roundtrip "Model" (-7) (Some "alt-x") _)).
  intros v [= <-]. reflexivity.
Defined.

(** C4 as stated fails: a variation that contains a ['.'] does not come
    back. *)
Lemma C4_dotted_variation_not_recovered :
  get_experiment_code_ex (VStr "Model") (VInt 3) (VStr "a.b") VNone
  = Ok ("Model_" +:+ number_variation_portion 3 (Some "a.b"))
  /\ experiment_number_and_variation
       (VStr (number_variation_portion 3 (Some "a.b")))
     = Ok (3, Some "a")
  /\ experiment_number_and_variation
       (VStr (number_variation_portion 3 (Some "a.b")))
     <> Ok (3, Some "a.b").
Proof. repeat split. discriminate. Qed.

(** C7: when the stem of the file name (directory and extension removed)
    has at least two underscores, it is cut at the first two only, into a
    date part, a time part and a remainder; the remainder is returned as
    the experiment code as it is, with the timestamp that the library
    parses from the date part and the first six characters of the time
    part.  The example of the specification evaluates as it says. *)
Theorem C7_decode_filename :
  (forall (fromisoformat : string -> result datetime) filename,
      let stem := fst (os_path.splitext (snd (os_path.split filename))) in
      (2 <= Str.count "_" stem)%nat ->
      (exists sDate sTime sCode,
          stem = sDate +:+ "_" +:+ sTime +:+ "_" +:+ sCode
          /\ Str.contains "_" sDate = false
          /\ Str.contains "_" sTime = false)
      /\ (forall sDate sTime sCode,
             stem = sDate +:+ "_" +:+ sTime +:+ "_" +:+ sCode ->
             Str.contains "_" sDate = false ->
             Str.contains "_" sTime = false ->
             experiment_code_and_timestamp fromisoformat filename
             = let? ts := fromisoformat
                            (sDate +:+ "T" +:+ Str.slice 0 2 sTime
                               +:+ ":" +:+ Str.slice 2 4 sTime
                               +:+ ":" +:+ Str.slice 4 6 sTime) in
               Ok (sCode, ts)))
  /\ experiment_code_and_timestamp Datetime.fromisoformat
       "20240115_093000_Model_03.json"
     = Ok ("Model_03", mkDatetime 2024 1 15 9 30 0).
Proof.
  split; [|reflexivity].
  intros fromisoformat filename stem Hcount. split.
  - destruct (cut_at_first "_" stem) as (p & r & Hs & Hp & Hc); [lia|].
    destruct (cut_at_first "_" r) as (q & r' & Hr & Hq & _); [lia|].
    exists p, q, r'. rewrite Hs, Hr. repeat split; assumption.
  - intros sDate sTime sCode Hs Hd Ht.
    unfold experiment_code_and_timestamp. fold stem. rewrite Hs.
    change (sDate +:+ "_" +:+ sTime +:+ "_" +:+ sCode)
      with (sDate +:+ String "_" (sTime +:+ String "_" sCode)).
    rewrite (split_max_at_first _ _ _ _ Hd), (split_max_at_first _ _ _ _ Ht).
    rewrite split_max_zero. reflexivity.
Qed.

Lemma C7_decode_filename_witness :
  experiment_code_and_timestamp Datetime.fromisoformat
    "runs/20240115_093000_A_B_01.json"
  = Ok ("A_B_01", mkDatetime 2024 1 15 9 30 0).
Proof.
  destruct C7_decode_filename as (H & _).
  destruct (H Datetime.fromisoformat "runs/20240115_093000_A_B_01.json")
    as (_ & Hall).
  - vm_compute. lia.
  - rewrite (Hall "20240115" "093000" "A_B_01"); reflexivity.
Defined.

(** ** Claims on the container *)

Section ContainerClaims.
Import MLExperimentConfig ConfigFacts.
#[local] Open Scope method_scope.

(** [assign] never misses [Experiment.BaseName] on an object that holds
    it: it returns or raises [TypeError]. *)
Lemma assign_outcome config_dict self :
  has_base_name self ->
  match fst (assign config_dict self) with
  | Ok _ => True
  | Raise e => e = TypeError
  end.
Proof.
  intros Hb. unfold assign. unfold bind at 1. rewrite copy_keys_spec.
  pose proof (keeps_copy_keys config_dict self Hb) as Hb1.
  rewrite copy_keys_spec in Hb1. simpl in Hb1.
  set (self1 := mk (config_dict ∪ items self) (filename self)) in *.
  destruct Hb1 as [b Hb1].
  unfold bind at 1. unfold getitem at 1.
  rewrite (dict_getitem_Some _ _ _ Hb1).
  assert (exists self2 b2,
    when (is_none b && dict_contains config_dict "ModelName")
      (v <- lift (dict_getitem config_dict "ModelName") ;;
       setitem K_BaseName v) self1 = (Ok tt, self2)
    /\ items self2 !! K_BaseName = Some b2) as (self2 & b2 & Hrun & Hb2).
  { destruct (is_none b && dict_contains config_dict "ModelName") eqn:E.
    - apply andb_true_iff in E as [_ [v Hv]%dict_contains_inv].
      eexists _, v. unfold when, bind, lift, setitem.
      rewrite (dict_getitem_Some _ _ _ Hv). split; [reflexivity|].
      simpl. apply lookup_insert_eq.
    - exists self1, b. split; [reflexivity|exact Hb1]. }
  unfold bind at 1. rewrite Hrun.
  destruct (dict_contains config_dict "DatasetName") eqn:Ed.
  - apply dict_contains_inv in Ed as [d Hd].
    unfold bind, when, getitem, lift, setitem, return_self.
    rewrite (dict_getitem_Some _ _ _ Hb2), (dict_getitem_Some _ _ _ Hd).
    destruct (py_add (VStr "_") d) as [suffix|e] eqn:Es.
    + destruct (py_add b2 suffix) as [new|e] eqn:En.
      * exact I.
      * simpl. destruct b2, suffix; simpl in En; congruence.
    + simpl. destruct d; simpl in Es; congruence.
  - exact I.
Qed.

Context {env : Env}.

(** C5 (as amended): when the mapping holds [DatasetName] with a string
    [D] and does not itself hold the key [Experiment.BaseName], [assign]
    on a container whose base name is a string [B] leaves the base name
    [B_D] (after copying every key of the mapping) and returns the
    container; on the container built with [base_name="M"], [number=1]
    this gives ["M_D"], and ["M_D_D"] when done a second time. *)
Theorem C5_assign_appends_dataset_name :
  (forall self B config_dict D,
      items self !! K_BaseName = Some (VStr B) ->
      config_dict !! "DatasetName" = Some (VStr D) ->
      config_dict !! K_BaseName = None ->
      let self' :=
        mk (<[K_BaseName := VStr (B +:+ "_" +:+ D)]>
              (config_dict ∪ items self)) (filename self) in
      assign config_dict self = (Ok self', self'))
  /\ (let c0 := snd (new (env := no_files) (hooks := base)
                       None (VStr "M") (VInt 1) VNone VNone None) in
      let c1 := snd (assign {[ "DatasetName" := VStr "D" ]} c0) in
      let c2 := snd (assign {[ "DatasetName" := VStr "D" ]} c1) in
      items c1 !! K_BaseName = Some (VStr "M_D")
      /\ items c2 !! K_BaseName = Some (VStr "M_D_D")).
Proof.
  split; [|vm_compute; split; reflexivity].
  intros self B config_dict D HB HD Hfresh self'.
  assert (H1 : (config_dict ∪ items self) !! K_BaseName = Some (VStr B)).
  { rewrite lookup_union_r; assumption. }
  unfold assign. unfold bind at 1. rewrite copy_keys_spec.
  unfold bind at 1. unfold getitem at 1. cbn [items].
  rewrite (dict_getitem_Some _ _ _ H1). cbn [is_none andb when].
  rewrite (dict_contains_Some _ _ _ HD).
  unfold bind, ret, when, getitem, lift, setitem, return_self. cbn [items].
  rewrite (dict_getitem_Some _ _ _ H1), (dict_getitem_Some _ _ _ HD).
  reflexivity.
Qed.

Lemma C5_assign_appends_dataset_name_witness :
  let self := mk {[ K_BaseName := VStr "Net"; "Epochs" := VInt 3 ]} None in
  items (snd (assign {[ "DatasetName" := VStr "MNIST" ]} self)) !! K_BaseName
  = Some (VStr "Net_MNIST").
Proof.
  intros self. destruct C5_assign_appends_dataset_name as (H & _).
  rewrite (H self "Net" {[ "DatasetName" := VStr "MNIST" ]} "MNIST");
    reflexivity.
Defined.

(** C5 as stated fails: a mapping that also holds [Experiment.BaseName]
    replaces the base name before the append. *)
Lemma C5_mapping_base_name_wins :
  let c0 := snd (new (env := no_files) (hooks := base)
                   None (VStr "M") (VInt 1) VNone VNone None) in
  let c1 := snd (assign {[ "DatasetName" := VStr "D";
                           K_BaseName := VStr "X" ]} c0) in
  items c0 !! K_BaseName = Some (VStr "M")
  /\ items c1 !! K_BaseName = Some (VStr "X_D")
  /\ items c1 !! K_BaseName <> Some (VStr "M_D").
Proof. vm_compute. repeat split. discriminate. Qed.

(** C6: for a path with nothing behind it, [load] with [must_exist=True]
    raises the "is not found" exception, and with [must_exist=False] it
    returns the container, whose mapping is what it was. *)
Theorem C6_load_missing_file {hooks : Hooks} self path :
  fs !! path = None ->
  load (Some path) true self
  = (Raise (Exception (msg_not_found path)), self)
  /\ load (Some path) false self = (Ok self, self).
Proof.
  intros Hp. unfold load, bind, ret, raise, return_self.
  rewrite bool_decide_eq_false_2; [split; reflexivity|].
  rewrite Hp. intros [? [=]].
Qed.

(** C8 (as amended): on a container whose base name is null, [assign]
    with a mapping that holds [DatasetName], does not hold [ModelName]
    and does not give [Experiment.BaseName] a string value raises
    [TypeError]. *)
Theorem C8_assign_dataset_name_on_null_base self config_dict :
  items self !! K_BaseName = Some VNone ->
  is_Some (config_dict !! "DatasetName") ->
  config_dict !! "ModelName" = None ->
  (forall s, config_dict !! K_BaseName <> Some (VStr s)) ->
  fst (assign config_dict self) = Raise TypeError.
Proof.
  intros Hnull [d Hd] Hmodel Hnostr.
  assert (exists b, (config_dict ∪ items self) !! K_BaseName = Some b
                    /\ forall s, b <> VStr s) as (b & H1 & Hb).
  { destruct (config_dict !! K_BaseName) as [b|] eqn:E.
    - exists b. split; [now apply lookup_union_Some_l|].
      intros s ->. now apply (Hnostr s).
    - exists VNone. split; [now rewrite lookup_union_r|discriminate]. }
  unfold assign. unfold bind at 1. rewrite copy_keys_spec.
  unfold bind at 1. unfold getitem at 1. cbn [items].
  rewrite (dict_getitem_Some _ _ _ H1).
  rewrite (dict_contains_None _ _ Hmodel), andb_false_r. cbn [when].
  rewrite (dict_contains_Some _ _ _ Hd).
  unfold bind, ret, when, getitem, lift, setitem, return_self. cbn [items].
  rewrite (dict_getitem_Some _ _ _ H1), (dict_getitem_Some _ _ _ Hd).
  destruct d as [| | |sd]; try reflexivity.
  destruct b as [| | |sb]; try reflexivity.
  now destruct (Hb sb).
Qed.

End ContainerClaims.

Lemma C6_load_missing_file_witness :
  let self := MLExperimentConfig.mk {[ K_BaseName := VStr "M" ]} None in
  MLExperimentConfig.load (env := no_files) (hooks := MLExperimentConfig.base)
    (Some "missing.json") true self
  = (Raise (Exception "Experiment configuration file missing.json is not found."),
     self)
  /\ MLExperimentConfig.load (env := no_files)
       (hooks := MLExperimentConfig.base) (Some "missing.json") false self
     = (Ok self, self).
Proof.
  exact (C6_load_missing_file (env := no_files)
           (hooks := MLExperimentConfig.base)
           (MLExperimentConfig.mk {[ K_BaseName := VStr "M" ]} None)
           "missing.json" eq_refl).
Defined.

Lemma C8_assign_dataset_name_on_null_base_witness :
  fst (MLExperimentConfig.assign {[ "DatasetName" := VStr "D" ]}
         (MLExperimentConfig.mk {[ K_BaseName := VNone ]} None))
  = Raise TypeError.
Proof.
  apply C8_assign_dataset_name_on_null_base.
  - reflexivity.
  - exists (VStr "D"). reflexivity.
  - reflexivity.
  - intros s. discriminate.
Defined.

(** C8 as stated fails: the mapping may itself bring a string base name,
    and then the append goes through. *)
Lemma C8_mapping_base_name_rescues :
  let c0 := snd (MLExperimentConfig.new (env := no_files)
                   (hooks := MLExperimentConfig.base)
                   None VNone VNone VNone VNone None) in
  let config_dict : gmap string value :=
    {[ "DatasetName" := VStr "D"; K_BaseName := VStr "X" ]} in
  let out := MLExperimentConfig.assign config_dict c0 in
  MLExperimentConfig.items c0 !! K_BaseName = Some VNone
  /\ is_Some (config_dict !! "DatasetName")
  /\ config_dict !! "ModelName" = None
  /\ fst out = Ok (snd out)
  /\ MLExperimentConfig.items (snd out) !! K_BaseName = Some (VStr "X_D").
Proof. vm_compute. repeat split. eauto. Qed.

(** Without the key, the first read of [assign] does raise [KeyError]. *)
Example assign_on_bare_dict :
  fst (MLExperimentConfig.assign ∅ (MLExperimentConfig.mk ∅ None))
  = Raise (KeyError K_BaseName).
Proof. reflexivity. Qed.

(** The constructor with every argument omitted returns, and leaves a
    null base name. *)
Example new_without_arguments :
  MLExperimentConfig.new (env := no_files) (hooks := MLExperimentConfig.base)
    None VNone VNone VNone VNone None
  = (Ok tt, MLExperimentConfig.mk {[ K_BaseName := VNone ]} None).
Proof. reflexivity. Qed.

(** C9: whatever the arguments of the constructor (and whatever is on
    disk), the object it leaves holds the key [Experiment.BaseName], so
    that [assign] on it never raises [KeyError]. *)
Theorem C9_constructor_sets_base_name {env : Env}
  filename base_name number variation fold_number hyperparams :
  let built :=
    MLExperimentConfig.new (hooks := MLExperimentConfig.base)
      filename base_name number variation fold_number hyperparams in
  is_Some (MLExperimentConfig.items (snd built) !! K_BaseName)
  /\ forall config_dict key,
       fst (MLExperimentConfig.assign config_dict (snd built))
       <> Raise (KeyError key).
Proof.
  intros built.
  assert (Hb : MLExperimentConfig.has_base_name (snd built))
    by apply ConfigFacts.init_has_base_name.
  split; [exact Hb|].
  intros config_dict key Hraise.
  pose proof (assign_outcome config_dict _ Hb) as H.
  rewrite Hraise in H. discriminate.
Qed.

(** C10: loading an existing file that holds a JSON object merges it into
    the container of the base class: every key of the object is set to the
    value the file gives it, every other key of the container keeps its
    value, and the container is returned. *)
Theorem C10_load_merges {env : Env} self filename path text d must_exist :
  filename = Some path
  \/ (filename = None /\ MLExperimentConfig.filename self = Some path) ->
  fs !! path = Some (RegularFile text) ->
  json_loads text = Ok (JObject d) ->
  let self' :=
    MLExperimentConfig.mk (d ∪ MLExperimentConfig.items self)
      (MLExperimentConfig.filename self) in
  MLExperimentConfig.load (hooks := MLExperimentConfig.base)
    filename must_exist self = (Ok self', self')
  /\ (forall k v, d !! k = Some v ->
        MLExperimentConfig.items self' !! k = Some v)
  /\ (forall k, d !! k = None ->
        MLExperimentConfig.items self' !! k
        = MLExperimentConfig.items self !! k).
Proof.
  intros Hname Hfile Hjson self'. split; [|split].
  - assert (Hresolved :
      (match filename with
       | None => MLExperimentConfig.get_filename
       | Some f => MLExperimentConfig.ret (Some f)
       end) self = (Ok (Some path), self)).
    { destruct Hname as [->|[-> Hattr]]; [reflexivity|].
      unfold MLExperimentConfig.get_filename. now rewrite Hattr. }
    unfold MLExperimentConfig.load.
    unfold MLExperimentConfig.bind at 1. rewrite Hresolved.
    rewrite bool_decide_eq_true_2 by (rewrite Hfile; eauto).
    unfold MLExperimentConfig.read_file. rewrite Hfile.
    unfold MLExperimentConfig.bind, MLExperimentConfig.ret,
      MLExperimentConfig.lift, MLExperimentConfig.return_self.
    cbn [MLExperimentConfig.setDefaults MLExperimentConfig.base].
    unfold MLExperimentConfig.ret.
    rewrite Hjson, ConfigFacts.copy_keys_spec. reflexivity.
  - intros k v Hk. now apply lookup_union_Some_l.
  - intros k Hk. cbn. now rewrite lookup_union_r.
Qed.

Lemma C10_load_merges_witness :
  let self :=
    MLExperimentConfig.mk
      {[ K_BaseName := VStr "Model"; K_Number := VInt 1 ]} None in
  let out :=
    MLExperimentConfig.load (env := sample_files)
      (hooks := MLExperimentConfig.base) (Some "configs/Model_03.json")
      false self in
  MLExperimentConfig.items (snd out) !! K_Number = Some (VInt 3)
  /\ MLExperimentConfig.items (snd out) !! K_BaseName = Some (VStr "Model").
Proof.
  intros self out.
  destruct (C10_load_merges (env := sample_files) self
              (Some "configs/Model_03.json") "configs/Model_03.json"
              sample_text {[ K_Number := VInt 3; "Epochs" := VInt 10 ]} false)
    as (Hout & Hset & Hkeep).
  - left. reflexivity.
  - reflexivity.
  - reflexivity.
  - unfold out. rewrite Hout. split.
    + apply Hset. reflexivity.
    + rewrite Hkeep; reflexivity.
Defined.

(** * Further properties of the code *)

(** ** More on splitting *)

Lemma contains_app sep a b :
  Str.contains sep (a +:+ b) = Str.contains sep a || Str.contains sep b.
Proof.
  induction a as [|c a IH]; simpl; [reflexivity|].
  rewrite IH. now destruct (Ascii.eqb c sep).
Qed.

Lemma split_parts_without_sep sep s :
  Forall (fun x => Str.contains sep x = false) (Str.split sep s).
Proof.
  induction s as [|c s IH]; simpl.
  - constructor; [reflexivity|constructor].
  - destruct (Ascii.eqb c sep) eqn:E.
    + constructor; [reflexivity|exact IH].
    + destruct (Str.split sep s) as [|h t]; [repeat constructor; simpl; now rewrite E|].
      inversion IH as [|? ? Hh Ht]; subst.
      constructor; [simpl; now rewrite E|exact Ht].
Qed.

Lemma split_with_sep sep s :
  Str.contains sep s = true ->
  exists a b tl, Str.split sep s = a :: b :: tl.
Proof.
  intros H.
  destruct (cut_at_first sep s) as (p & r & -> & Hp & _).
  { destruct (Str.count sep s) eqn:E; [|lia].
    apply count_contains in E. congruence. }
  rewrite (split_at_first _ _ _ Hp).
  destruct (Str.split sep r) as [|b tl] eqn:E; [now apply split_nonempty in E|].
  eauto.
Qed.

Lemma split_max_without_sep sep s n :
  Str.contains sep s = false -> Str.split_max sep s n = [s].
Proof.
  destruct n as [|n]; [intros _; apply split_max_zero|].
  induction s as [|c s IH]; simpl; [reflexivity|].
  destruct (Ascii.eqb c sep); simpl; [discriminate|].
  intros H. rewrite (IH H). reflexivity.
Qed.

(** ** Which exceptions a computation can raise *)

Lemma rbind_raises_only {A B} (P : pyerr -> Prop) (r : result A)
  (k : A -> result B) :
  raises_only P r -> (forall x, raises_only P (k x)) ->
  raises_only P (rbind r k).
Proof. intros Hr Hk. destruct r as [x|e]; simpl; [apply Hk|exact Hr]. Qed.

Lemma py_add_raises_only a b : raises_only (fun e => e = TypeError) (py_add a b).
Proof. destruct a, b; simpl; auto. Qed.

Lemma py_int_raises_only v :
  raises_only (fun e => e = TypeError \/ e = ValueError) (py_int v).
Proof. destruct v as [| | |s]; simpl; auto. destruct (PyInt.of_str s); simpl; auto. Qed.

(** ** The legacy code *)

(** X1: with a string [ModelName], a [ModelVariation] that is absent or a
    string and an [ExperimentNumber] that is absent or an integer,
    [legacy_model_code] returns [{ModelName}[_{ModelVariation}][_{NN}]]. *)
Theorem legacy_model_code_format (config_dict : gmap string value) m v n :
  config_dict !! "ModelName" = Some (VStr m) ->
  config_dict !! "ModelVariation" = VStr <$> v ->
  config_dict !! "ExperimentNumber" = VInt <$> n ->
  legacy_model_code config_dict = Ok (VStr (legacy_code m v n)).
Proof.
  intros Hm Hv Hn. unfold legacy_model_code, legacy_code.
  rewrite (dict_contains_Some _ _ _ Hm), (dict_getitem_Some _ _ _ Hm).
  cbn [rbind].
  destruct v as [v|], n as [n|]; cbn [fmap option_fmap option_map] in Hv, Hn.
  - rewrite (dict_contains_Some _ _ _ Hv), (dict_getitem_Some _ _ _ Hv),
      (dict_contains_Some _ _ _ Hn), (dict_getitem_Some _ _ _ Hn).
    cbn [rbind py_add py_percent_02d]. norm_app. reflexivity.
  - rewrite (dict_contains_Some _ _ _ Hv), (dict_getitem_Some _ _ _ Hv),
      (dict_contains_None _ _ Hn).
    cbn [rbind py_add py_percent_02d]. norm_app. reflexivity.
  - rewrite (dict_contains_None _ _ Hv),
      (dict_contains_Some _ _ _ Hn), (dict_getitem_Some _ _ _ Hn).
    cbn [rbind py_add py_percent_02d]. norm_app. reflexivity.
  - rewrite (dict_contains_None _ _ Hv), (dict_contains_None _ _ Hn).
    cbn [rbind py_add py_percent_02d]. norm_app. reflexivity.
Qed.

Lemma legacy_model_code_format_witness :
  legacy_model_code
    {[ "ModelName" := VStr "CNN"; "ModelVariation" := VStr "wide";
       "ExperimentNumber" := VInt 7; "Epochs" := VInt 10 ]}
  = Ok (VStr "CNN_wide_07").
Proof.
  apply (legacy_model_code_format _ "CNN" (Some "wide") (Some 7));
    reflexivity.
Defined.

(** X2: [legacy_model_code] raises its "Needs at least the key 'ModelName'"
    exception exactly when the key [ModelName] is missing, and it never
    raises [KeyError]: every other key is read only after a membership
    test. *)
Theorem legacy_model_code_outcomes (config_dict : gmap string value) :
  (config_dict !! "ModelName" = None <->
   legacy_model_code config_dict = Raise (Exception msg_needs_model_name))
  /\ forall key, legacy_model_code config_dict <> Raise (KeyError key).
Proof.
  assert (Hok : forall m, config_dict !! "ModelName" = Some m ->
            raises_only (fun e => e = TypeError)
              (legacy_model_code config_dict)).
  { intros m Hm. unfold legacy_model_code.
    rewrite (dict_contains_Some _ _ _ Hm), (dict_getitem_Some _ _ _ Hm).
    cbn [rbind]. apply rbind_raises_only.
    - destruct (dict_contains config_dict "ModelVariation") eqn:E; [|exact I].
      apply dict_contains_inv in E as [v Hv].
      rewrite (dict_getitem_Some _ _ _ Hv). cbn [rbind].
      apply rbind_raises_only; [|intros x]; apply py_add_raises_only.
    - intros sCode. apply rbind_raises_only; [|intros x; exact I].
      destruct (dict_contains config_dict "ExperimentNumber") eqn:E; [|exact I].
      apply dict_contains_inv in E as [n Hn].
      rewrite (dict_getitem_Some _ _ _ Hn). cbn [rbind].
      apply rbind_raises_only; [now destruct n|intros x; apply py_add_raises_only]. }
  destruct (config_dict !! "ModelName") as [m|] eqn:Hm.
  - specialize (Hok m eq_refl). split.
    + split; [discriminate|]. intros Heq. rewrite Heq in Hok. discriminate.
    + intros key Heq. rewrite Heq in Hok. discriminate.
  - unfold legacy_model_code. rewrite (dict_contains_None _ _ Hm).
    split; [tauto|discriminate].
Qed.

(** ** More on the codec *)

(** X3: [get_experiment_code] raises its "Needs at least two keys"
    exception exactly when one of the keys [Experiment.BaseName],
    [Experiment.Number] is missing, and it never raises [KeyError]: the
    optional keys are read only after a membership test. *)
Theorem get_experiment_code_outcomes (config_dict : gmap string value) :
  (config_dict !! K_BaseName = None \/ config_dict !! K_Number = None <->
   get_experiment_code config_dict = Raise (Exception msg_invalid_configuration))
  /\ forall key, get_experiment_code config_dict <> Raise (KeyError key).
Proof.
  assert (Hok : forall b n,
            config_dict !! K_BaseName = Some b ->
            config_dict !! K_Number = Some n ->
            raises_only (fun e => e = TypeError \/ e = ValueError)
              (get_experiment_code config_dict)).
  { intros b n Hb Hn. unfold get_experiment_code.
    rewrite (dict_contains_Some _ _ _ Hb), (dict_contains_Some _ _ _ Hn),
      (dict_getitem_Some _ _ _ Hb), (dict_getitem_Some _ _ _ Hn).
    cbn [andb rbind].
    apply rbind_raises_only; [apply py_int_raises_only|intros nNumber].
    apply rbind_raises_only; [|intros sVariation].
    { destruct (dict_contains config_dict K_Variation) eqn:E; [|exact I].
      apply dict_contains_inv in E as [v Hv].
      now rewrite (dict_getitem_Some _ _ _ Hv). }
    apply rbind_raises_only; [|intros nFoldNumber; exact I].
    destruct (dict_contains config_dict K_FoldNumber) eqn:E; [|exact I].
    apply dict_contains_inv in E as [f Hf].
    rewrite (dict_getitem_Some _ _ _ Hf). cbn [rbind].
    apply rbind_raises_only; [apply py_int_raises_only|intros x; exact I]. }
  destruct (config_dict !! K_BaseName) as [b|] eqn:Hb;
    [|unfold get_experiment_code; rewrite (dict_contains_None _ _ Hb);
      split; [tauto|discriminate]].
  destruct (config_dict !! K_Number) as [n|] eqn:Hn;
    [|unfold get_experiment_code;
      rewrite (dict_contains_None _ _ Hn), andb_false_r;
      split; [tauto|discriminate]].
  specialize (Hok b n eq_refl eq_refl). split.
  - split; [intros [?|?]; discriminate|].
    intros Heq. rewrite Heq in Hok. destruct Hok; discriminate.
  - intros key Heq. rewrite Heq in Hok. destruct Hok; discriminate.
Qed.

(** X4: on a string, [experiment_number_and_variation] returns or raises
    [ValueError], never [IndexError]; when it returns, the variation is
    absent exactly when the string has no ['.'], and a variation never
    contains a ['.']. *)
Theorem number_and_variation_of_str (s : string) :
  raises_only (fun e => e = ValueError)
    (experiment_number_and_variation (VStr s))
  /\ forall n v,
       experiment_number_and_variation (VStr s) = Ok (n, v) ->
       (v = None <-> Str.contains "." s = false)
       /\ forall w, v = Some w -> Str.contains "." w = false.
Proof.
  assert (Hint : forall x, raises_only (fun e => e = ValueError) (py_int (VStr x))).
  { intros x. simpl. destruct (PyInt.of_str x); simpl; auto. }
  unfold experiment_number_and_variation.
  destruct (Str.contains "." s) eqn:E.
  - destruct (split_with_sep _ _ E) as (a & b & tl & Hsplit).
    pose proof (split_parts_without_sep "." s) as Hparts.
    rewrite Hsplit in *. cbn -[py_int].
    specialize (Hint a). destruct (py_int (VStr a)) as [k|e]; cbn.
    + split; [exact I|]. intros n v [= <- <-]. split.
      * split; discriminate.
      * intros w [= <-]. inversion Hparts as [|? ? _ Hb]; subst.
        now inversion Hb.
    + split; [exact Hint|discriminate].
  - rewrite (split_without_sep _ _ E). cbn -[py_int].
    specialize (Hint s). destruct (py_int (VStr s)) as [k|e]; cbn.
    + split; [exact I|]. intros n v [= <- <-]. split; [tauto|discriminate].
    + split; [exact Hint|discriminate].
Qed.

Lemma parse_digits_stops ds c rest : forall acc b,
  Str.forallb PyInt.is_digit ds = true ->
  PyInt.is_digit c = false -> Ascii.eqb c "_" = false ->
  PyInt.parse_digits (ds +:+ String c rest) acc b = None.
Proof.
  unfold PyInt.is_digit.
  induction ds as [|d ds IH]; intros acc b Hds Hc Hu; simpl.
  - destruct (PyInt.digit_of c); [discriminate|]. now rewrite Hu.
  - simpl in Hds. apply andb_true_iff in Hds as [Hd Hds].
    destruct (PyInt.digit_of d); [|discriminate]. now apply IH.
Qed.

Lemma of_str_format_then_dash w n rest :
  Str.forallb PyInt.printable rest = true ->
  PyInt.of_str (PyInt.format_0d w n +:+ "-" +:+ rest) = None.
Proof.
  intros Hrest. unfold PyInt.of_str.
  rewrite PyIntFacts.strip_printable
    by (rewrite !forallb_app, PyIntFacts.format_printable, Hrest; reflexivity).
  unfold PyInt.format_0d. set (k := (w - _ - _)%nat).
  assert (HD : Str.forallb PyInt.is_digit (Str.zeros k +:+ PyInt.digits n) = true)
    by now rewrite forallb_app, PyIntFacts.zeros_are_digits,
         PyIntFacts.digits_are_digits.
  rewrite !app_assoc_str.
  change ("-" +:+ rest) with (String "-" rest).
  rewrite <- (app_assoc_str (Str.zeros k)).
  unfold PyInt.sign. destruct (n <? 0)%Z.
  - change ("-" +:+ ?x) with (String "-" x). cbn [Ascii.eqb Bool.eqb].
    change (Ascii.eqb "-" "-") with true. cbn iota.
    now rewrite parse_digits_stops.
  - rewrite app_nil_l_str.
    destruct (Str.zeros k +:+ PyInt.digits n) as [|d D] eqn:ED.
    + exfalso. destruct k; [|discriminate].
      now apply (PyIntFacts.digits_nonempty n).
    + change (String d D +:+ String "-" rest)
        with (String d (D +:+ String "-" rest)).
      assert (Hd : PyInt.is_digit d = true)
        by (simpl in HD; now apply andb_true_iff in HD as [? _]).
      assert (Ascii.eqb d "-" = false /\ Ascii.eqb d "+" = false) as [-> ->]
        by (split; apply Ascii.eqb_neq; intros ->; discriminate).
      change (String d (D +:+ String "-" rest))
        with (String d D +:+ String "-" rest).
      now rewrite parse_digits_stops.
Qed.

(** X5: the fold number is not decodable.  For the code that
    [get_experiment_code_ex] builds with a fold number, the part after
    [{base_name}_] decodes to the number and a variation with the fold
    suffix glued to it when a (dot-free) variation is present, and raises
    [ValueError] when there is no variation. *)
Theorem fold_number_not_decoded base_name number variation fold_number :
  (forall w, variation = Some w -> Str.contains "." w = false) ->
  let suffix := "-" +:+ PyInt.format_0d 2 fold_number in
  let portion := number_variation_portion number variation +:+ suffix in
  get_experiment_code_ex (VStr base_name) (VInt number)
    (optional_str variation) (VInt fold_number)
  = Ok (base_name +:+ "_" +:+ portion)
  /\ experiment_number_and_variation (VStr portion)
     = match variation with
       | Some w => Ok (number, Some (w +:+ suffix))
       | None => Raise ValueError
       end.
Proof.
  intros Hv suffix portion. subst suffix portion. split.
  - unfold get_experiment_code_ex, number_variation_portion.
    destruct variation as [w|]; cbn [optional_str is_none negb andb py_int rbind py_str];
      f_equal; now norm_app.
  - unfold experiment_number_and_variation, number_variation_portion.
    destruct variation as [w|].
    + rewrite !app_assoc_str.
      change (PyInt.format_0d 2 number +:+ "." +:+ ?x)
        with (PyInt.format_0d 2 number +:+ String "." x).
      rewrite (split_at_first _ _ _ (format_without_dot 2 number)).
      rewrite split_without_sep.
      * cbn -[py_int PyInt.format_0d]. now rewrite py_int_format.
      * rewrite !contains_app, (Hv w eq_refl), format_without_dot. reflexivity.
    + rewrite app_nil_r_str. rewrite split_without_sep.
      * cbn -[py_int PyInt.format_0d]. unfold py_int.
        rewrite of_str_format_then_dash; [reflexivity|].
        apply PyIntFacts.format_printable.
      * rewrite !contains_app, !format_without_dot. reflexivity.
Qed.

Lemma fold_number_not_decoded_witness :
  experiment_number_and_variation (VStr "03.b-02") = Ok (3, Some "b-02")
  /\ experiment_number_and_variation (VStr "03-02") = Raise ValueError.
Proof.
  split.
  - refine (proj2 (fold_number_not_decoded "Model" 3 (Some "b") 2 _)).
    intros w [= <-]. reflexivity.
  - refine (proj2 (fold_number_not_decoded "Model" 3 None 2 _)).
    discriminate.
Defined.

(** X6: a file name whose stem has fewer than two underscores makes
    [experiment_code_and_timestamp] raise [IndexError], before the date
    parser is consulted. *)
Theorem decode_filename_too_few_parts
  (fromisoformat : string -> result datetime) filename :
  let stem := fst (os_path.splitext (snd (os_path.split filename))) in
  (Str.count "_" stem < 2)%nat ->
  experiment_code_and_timestamp fromisoformat filename = Raise IndexError.
Proof.
  intros stem Hcount. unfold experiment_code_and_timestamp. fold stem.
  destruct (Str.count "_" stem) as [|[|k]] eqn:E; [| |lia].
  - apply count_contains in E.
    rewrite (split_max_without_sep _ _ _ E). reflexivity.
  - destruct (cut_at_first "_" stem) as (p & r & -> & Hp & Hc); [lia|].
    assert (Hr : Str.contains "_" r = false) by (apply count_contains; lia).
    rewrite (split_max_at_first _ _ _ _ Hp), (split_max_without_sep _ _ _ Hr).
    reflexivity.
Qed.

Lemma decode_filename_too_few_parts_witness :
  experiment_code_and_timestamp Datetime.fromisoformat
    "runs/20240115_Model03.json" = Raise IndexError.
Proof.
  apply decode_filename_too_few_parts. vm_compute. lia.
Defined.

(** ** Paths *)

Lemma length_app_str a b :
  String.length (a +:+ b) = (String.length a + String.length b)%nat.
Proof. induction a as [|c a IH]; simpl; [reflexivity|now rewrite IH]. Qed.

Lemma rfind_from_app c a : forall b pos found,
  Str.rfind_from c (a +:+ b) pos found
  = Str.rfind_from c b (pos + Z.of_nat (String.length a))
      (Str.rfind_from c a pos found).
Proof.
  induction a as [|x a IH]; intros b pos found; simpl.
  - now rewrite Z.add_0_r.
  - rewrite IH. f_equal. lia.
Qed.

Lemma rfind_from_without c s : forall pos found,
  Str.contains c s = false -> Str.rfind_from c s pos found = found.
Proof.
  induction s as [|x s IH]; intros pos found; simpl; [reflexivity|].
  destruct (Ascii.eqb x c); simpl; [discriminate|]. apply IH.
Qed.

Lemma rfind_without c s : Str.contains c s = false -> Str.rfind c s = -1.
Proof. apply rfind_from_without. Qed.

Lemma rfind_at_last c a b :
  Str.contains c b = false ->
  Str.rfind c (a +:+ String c b) = Z.of_nat (String.length a).
Proof.
  intros Hb. unfold Str.rfind. rewrite rfind_from_app. simpl.
  rewrite Ascii.eqb_refl. now rewrite rfind_from_without.
Qed.

Lemma substring_prefix a b :
  String.substring 0 (String.length a) (a +:+ b) = a.
Proof. induction a as [|c a IH]; simpl; [now destruct b|now rewrite IH]. Qed.

Lemma substring_whole s n :
  (String.length s <= n)%nat -> String.substring 0 n s = s.
Proof.
  revert n. induction s as [|c s IH]; intros n Hn; simpl.
  - now destruct n.
  - destruct n as [|n]; simpl in *; [lia|]. rewrite IH; [reflexivity|lia].
Qed.

Lemma substring_skip a b n :
  String.substring (String.length a) n (a +:+ b) = String.substring 0 n b.
Proof. induction a as [|c a IH]; simpl; [reflexivity|exact IH]. Qed.

Lemma has_non_dot_app a b :
  os_path.has_non_dot (a +:+ b)
  = os_path.has_non_dot a || os_path.has_non_dot b.
Proof.
  induction a as [|c a IH]; simpl; [reflexivity|].
  rewrite IH. now destruct (Ascii.eqb c ".").
Qed.

(** The last component of a path. *)
Lemma split_tail dir name :
  dir = "" \/ (exists d, dir = d +:+ "/") ->
  Str.contains "/" name = false ->
  snd (os_path.split (dir +:+ name)) = name.
Proof.
  intros Hdir Hname. unfold os_path.split. cbn [snd].
  assert (Hi : Str.rfind "/" (dir +:+ name) + 1 = Z.of_nat (String.length dir)).
  { destruct Hdir as [->|[d ->]].
    - rewrite app_nil_l_str, (rfind_without _ _ Hname). reflexivity.
    - rewrite app_assoc_str. change ("/" +:+ name) with (String "/" name).
      rewrite (rfind_at_last _ _ _ Hname), length_app_str. simpl. lia. }
  unfold Str.drop. rewrite Hi, Nat2Z.id, substring_skip.
  apply substring_whole. rewrite length_app_str. lia.
Qed.

(** The root of a file name: what precedes its last ['.']. *)
Lemma splitext_root body ext :
  Str.contains "/" body = false -> Str.contains "/" ext = false ->
  Str.contains "." ext = false -> os_path.has_non_dot body = true ->
  fst (os_path.splitext (body +:+ "." +:+ ext)) = body.
Proof.
  intros Hb He Hd Hnd. unfold os_path.splitext.
  change (body +:+ "." +:+ ext) with (body +:+ String "." ext).
  rewrite (rfind_at_last _ _ _ Hd).
  rewrite rfind_without
    by (rewrite contains_app; simpl; now rewrite Hb, He).
  assert (Hlt : (-1 <? Z.of_nat (String.length body))%Z = true)
    by (apply Z.ltb_lt; lia).
  rewrite Hlt. unfold Str.slice, Str.take.
  change (Z.to_nat (-1 + 1)) with 0%nat.
  rewrite Nat2Z.id, Nat.sub_0_r, substring_prefix, Hnd. reflexivity.
Qed.

(** Decoding a stem that is known. *)
Lemma decode_stem (fromisoformat : string -> result datetime) filename
  sDate sTime sCode :
  fst (os_path.splitext (snd (os_path.split filename)))
  = sDate +:+ "_" +:+ sTime +:+ "_" +:+ sCode ->
  Str.contains "_" sDate = false -> Str.contains "_" sTime = false ->
  experiment_code_and_timestamp fromisoformat filename
  = let? ts := fromisoformat
                 (sDate +:+ "T" +:+ Str.slice 0 2 sTime
                    +:+ ":" +:+ Str.slice 2 4 sTime
                    +:+ ":" +:+ Str.slice 4 6 sTime) in
    Ok (sCode, ts).
Proof.
  intros Hs Hd Ht. unfold experiment_code_and_timestamp. rewrite Hs.
  change (sDate +:+ "_" +:+ sTime +:+ "_" +:+ sCode)
    with (sDate +:+ String "_" (sTime +:+ String "_" sCode)).
  rewrite (split_max_at_first _ _ _ _ Hd), (split_max_at_first _ _ _ _ Ht).
  rewrite split_max_zero. reflexivity.
Qed.

(** X7: a file named [{dir/}{date}_{time}_{code}.{ext}] gives back [code]
    as it is, dots and underscores included, with the timestamp parsed from
    [date] and [time].  Whatever follows the last ['.'] of the name counts
    as the extension, so a name written without one loses the end of its
    code from the last ['.'] on. *)
Theorem decode_filename_recovers_code
  (fromisoformat : string -> result datetime) dir sDate sTime sCode ext :
  dir = "" \/ (exists d, dir = d +:+ "/") ->
  Str.contains "/" (sDate +:+ sTime +:+ sCode +:+ ext) = false ->
  Str.contains "_" sDate = false -> Str.contains "_" sTime = false ->
  Str.contains "." ext = false ->
  os_path.has_non_dot sDate = true ->
  experiment_code_and_timestamp fromisoformat
    (dir +:+ sDate +:+ "_" +:+ sTime +:+ "_" +:+ sCode +:+ "." +:+ ext)
  = let? ts := fromisoformat
                 (sDate +:+ "T" +:+ Str.slice 0 2 sTime
                    +:+ ":" +:+ Str.slice 2 4 sTime
                    +:+ ":" +:+ Str.slice 4 6 sTime) in
    Ok (sCode, ts).
Proof.
  intros Hdir Hslash Hd Ht Hext Hnd.
  rewrite !contains_app in Hslash.
  apply orb_false_iff in Hslash as [Hs1 Hslash].
  apply orb_false_iff in Hslash as [Hs2 Hslash].
  apply orb_false_iff in Hslash as [Hs3 Hs4].
  set (body := sDate +:+ "_" +:+ sTime +:+ "_" +:+ sCode).
  assert (Hbody : Str.contains "/" body = false).
  { unfold body. rewrite !contains_app, Hs1, Hs2, Hs3. reflexivity. }
  apply decode_stem; [|assumption|assumption].
  replace (sDate +:+ "_" +:+ sTime +:+ "_" +:+ sCode +:+ "." +:+ ext)
    with (body +:+ "." +:+ ext) by (unfold body; now rewrite !app_assoc_str).
  rewrite split_tail; [|assumption|].
  - apply splitext_root; try assumption.
    unfold body. now rewrite has_non_dot_app, Hnd.
  - rewrite !contains_app, Hbody, Hs4. reflexivity.
Qed.

Lemma decode_filename_recovers_code_witness :
  experiment_code_and_timestamp Datetime.fromisoformat
    "out/runs/20240115_093000_Net_v2_03.b-02.json"
  = Ok ("Net_v2_03.b-02", mkDatetime 2024 1 15 9 30 0)
  /\ experiment_code_and_timestamp Datetime.fromisoformat
       "20240115_093000_Net_03.b"
     = Ok ("Net_03", mkDatetime 2024 1 15 9 30 0).
Proof.
  split.
  - refine (decode_filename_recovers_code Datetime.fromisoformat
              "out/runs/" "20240115" "093000" "Net_v2_03.b-02" "json"
              _ _ _ _ _ _); try reflexivity.
    right. exists "out/runs". reflexivity.
  - refine (decode_filename_recovers_code Datetime.fromisoformat
              "" "20240115" "093000" "Net_03" "b" _ _ _ _ _ _);
      try reflexivity.
    left. reflexivity.
Defined.

(** ** More on the container *)

Section ContainerFacts.
Import MLExperimentConfig ConfigFacts.
#[local] Open Scope method_scope.

(** What [load] of the base class does, case by case. *)
Lemma load_base_spec {env : Env} f must_exist self :
  load (hooks := base) f must_exist self =
  match (match f with Some p => Some p | None => filename self end) with
  | None => (Raise TypeError, self)
  | Some path =>
      match fs !! path with
      | None =>
          if must_exist
          then (Raise (Exception (msg_not_found path)), self)
          else (Ok self, self)
      | Some Directory => (Raise OSError, self)
      | Some (RegularFile text) =>
          match json_loads text with
          | Raise e => (Raise e, self)
          | Ok JOther => (Raise AttributeError, self)
          | Ok (JObject d) =>
              let self' := mk (d ∪ items self) (filename self) in
              (Ok self', self')
          end
      end
  end.
Proof.
  unfold load. unfold bind at 1.
  assert (Hres :
    (match f with None => get_filename | Some p => ret (Some p) end) self
    = (Ok (match f with Some p => Some p | None => filename self end), self))
    by now destruct f.
  rewrite Hres. destruct (match f with Some p => Some p | None => filename self end)
    as [path|]; [|reflexivity].
  destruct (fs !! path) as [[text|]|] eqn:Hp.
  - rewrite bool_decide_eq_true_2 by eauto.
    unfold read_file. rewrite Hp.
    unfold bind, ret, lift, return_self.
    cbn [setDefaults base]. unfold ret.
    destruct (json_loads text) as [[d|]|e]; try reflexivity.
    now rewrite copy_keys_spec.
  - rewrite bool_decide_eq_true_2 by eauto.
    unfold read_file. rewrite Hp. reflexivity.
  - rewrite bool_decide_eq_false_2 by (intros [? [=]]).
    now destruct must_exist.
Qed.

(** X8: [load] of the base class is all or nothing: when it raises, for
    whatever reason, the container is exactly what it was. *)
Theorem load_failure_leaves_container {env : Env} f must_exist self e :
  fst (load (hooks := base) f must_exist self) = Raise e ->
  snd (load (hooks := base) f must_exist self) = self.
Proof.
  rewrite load_base_spec.
  destruct (match f with Some p => Some p | None => filename self end)
    as [path|]; [|reflexivity].
  destruct (fs !! path) as [[text|]|]; try reflexivity.
  - destruct (json_loads text) as [[d|]|]; try reflexivity. discriminate.
  - destruct must_exist; [reflexivity|discriminate].
Qed.

(** X9: loading twice is loading once: the second [load] of the same file
    has the outcome of the first and changes nothing more. *)
Theorem load_twice {env : Env} f must_exist self :
  load (hooks := base) f must_exist
    (snd (load (hooks := base) f must_exist self))
  = load (hooks := base) f must_exist self.
Proof.
  rewrite (load_base_spec f must_exist self).
  destruct (match f with Some p => Some p | None => filename self end)
    as [path|] eqn:Hres; cbn [snd]; rewrite load_base_spec, ?Hres;
    [|reflexivity].
  destruct (fs !! path) as [[text|]|] eqn:Hp; cbn [snd]; rewrite ?Hres, ?Hp;
    try reflexivity.
  - destruct (json_loads text) as [[d|]|] eqn:Hj; cbn [snd];
      rewrite ?Hres, ?Hp, ?Hj; try reflexivity.
    cbn [snd filename items].
    assert (Hres' : match f with Some p => Some p | None => filename self end
                    = Some path) by exact Hres.
    rewrite Hres', Hp, Hj. cbn [items filename].
    now rewrite (assoc_L (∪)), (idemp_L (∪)).
  - destruct must_exist; cbn [snd]; rewrite ?Hres, ?Hp; reflexivity.
Qed.

(** The state [assign] leaves, whatever its outcome. *)
Lemma assign_state config_dict self :
  exists m',
    snd (assign config_dict self) = mk m' (filename self)
    /\ forall k, k <> K_BaseName ->
                 m' !! k = (config_dict ∪ items self) !! k.
Proof.
  unfold assign. unfold bind at 1. rewrite copy_keys_spec.
  unfold bind, when, getitem, setitem, lift, ret, return_self.
  cbn [items filename].
  repeat match goal with
         | |- context [dict_getitem ?d ?key] => destruct (dict_getitem d key)
         | |- context [py_add ?a ?b] => destruct (py_add a b)
         | |- context [if ?b then _ else _] => destruct b
         end;
    cbn [snd items filename]; eexists; (split; [reflexivity|]);
    intros k Hk; rewrite ?lookup_insert_ne by congruence; reflexivity.
Qed.

(** X10: whether it returns or raises, [assign] leaves every key other
    than [Experiment.BaseName] as the plain merge of the mapping into the
    container gives it, and leaves the [filename] attribute alone. *)
Theorem assign_frame config_dict self k :
  k <> K_BaseName ->
  items (snd (assign config_dict self)) !! k
  = (config_dict ∪ items self) !! k
  /\ filename (snd (assign config_dict self)) = filename self.
Proof.
  intros Hk. destruct (assign_state config_dict self) as (m' & -> & Hm').
  split; [now apply Hm'|reflexivity].
Qed.

Lemma assign_frame_witness :
  let self := mk {[ K_BaseName := VNone; "Epochs" := VInt 3 ]} (Some "a.json") in
  let out := assign {[ "DatasetName" := VStr "D"; "Epochs" := VInt 9 ]} self in
  fst out = Raise TypeError
  /\ items (snd out) !! "Epochs" = Some (VInt 9)
  /\ filename (snd out) = Some "a.json".
Proof.
  intros self out. subst out. split; [reflexivity|].
  destruct (assign_frame {[ "DatasetName" := VStr "D"; "Epochs" := VInt 9 ]}
              self "Epochs") as [H1 H2]; [discriminate|].
  split; [rewrite H1; reflexivity|exact H2].
Defined.

(** X11: on a container whose base name is null, a mapping that brings a
    string [ModelName] (and no [Experiment.BaseName] of its own) makes it
    the base name, and a string [DatasetName], when present, is appended
    to it. *)
Theorem assign_model_name_default config_dict self m D :
  items self !! K_BaseName = Some VNone ->
  config_dict !! K_BaseName = None ->
  config_dict !! "ModelName" = Some (VStr m) ->
  config_dict !! "DatasetName" = VStr <$> D ->
  let self' :=
    mk (<[K_BaseName :=
            VStr (m +:+ match D with Some d => "_" +:+ d | None => "" end)]>
          (config_dict ∪ items self)) (filename self) in
  assign config_dict self = (Ok self', self').
Proof.
  intros Hnull Hfresh Hm HD self'. subst self'.
  assert (H1 : (config_dict ∪ items self) !! K_BaseName = Some VNone)
    by now rewrite lookup_union_r.
  unfold assign. unfold bind at 1. rewrite copy_keys_spec.
  unfold bind at 1. unfold getitem at 1. cbn [items].
  rewrite (dict_getitem_Some _ _ _ H1), (dict_contains_Some _ _ _ Hm).
  cbn [is_none andb when].
  unfold bind at 1. unfold bind at 1. unfold lift at 1. unfold setitem at 1.
  rewrite (dict_getitem_Some _ _ _ Hm). cbn [items filename].
  destruct D as [d|]; cbn [fmap option_fmap option_map] in HD.
  - rewrite (dict_contains_Some _ _ _ HD).
    unfold bind, when, getitem, lift, setitem, return_self. cbn [items filename].
    rewrite (dict_getitem_Some _ _ _ (lookup_insert_eq _ _ _)),
      (dict_getitem_Some _ _ _ HD).
    cbn [py_add]. now rewrite insert_insert_eq.
  - rewrite (dict_contains_None _ _ HD).
    unfold bind, when, ret, return_self. now rewrite app_nil_r_str.
Qed.

Lemma assign_model_name_default_witness :
  let self := mk {[ K_BaseName := VNone ]} None in
  items (snd (assign {[ "ModelName" := VStr "CNN";
                        "DatasetName" := VStr "MNIST" ]} self)) !! K_BaseName
  = Some (VStr "CNN_MNIST").
Proof.
  intros self.
  rewrite (assign_model_name_default
             {[ "ModelName" := VStr "CNN"; "DatasetName" := VStr "MNIST" ]}
             self "CNN" (Some "MNIST")); reflexivity.
Defined.

(** X12: on a container whose base name is set (not null), a mapping
    with neither [DatasetName] nor [Experiment.BaseName] is merely merged:
    its [ModelName], if any, does not touch the base name. *)
Theorem assign_keeps_set_base_name config_dict self b :
  items self !! K_BaseName = Some b -> b <> VNone ->
  config_dict !! K_BaseName = None ->
  config_dict !! "DatasetName" = None ->
  let self' := mk (config_dict ∪ items self) (filename self) in
  assign config_dict self = (Ok self', self')
  /\ items self' !! K_BaseName = Some b.
Proof.
  intros Hb Hnn Hfresh HD self'. subst self'.
  assert (H1 : (config_dict ∪ items self) !! K_BaseName = Some b)
    by now rewrite lookup_union_r.
  split; [|exact H1].
  unfold assign. unfold bind at 1. rewrite copy_keys_spec.
  unfold bind at 1. unfold getitem at 1. cbn [items].
  rewrite (dict_getitem_Some _ _ _ H1), (dict_contains_None _ _ HD).
  assert (is_none b = false) as -> by now destruct b.
  reflexivity.
Qed.

Lemma assign_keeps_set_base_name_witness :
  let self := mk {[ K_BaseName := VStr "Net" ]} None in
  items (snd (assign {[ "ModelName" := VStr "CNN" ]} self)) !! K_BaseName
  = Some (VStr "Net").
Proof.
  intros self.
  destruct (assign_keeps_set_base_name {[ "ModelName" := VStr "CNN" ]}
              self (VStr "Net")) as [H1 H2].
  - reflexivity.
  - discriminate.
  - reflexivity.
  - reflexivity.
  - rewrite H1. exact H2.
Defined.

End ContainerFacts.

Lemma load_failure_leaves_container_witness :
  let self := MLExperimentConfig.mk {[ K_BaseName := VStr "M" ]} None in
  snd (MLExperimentConfig.load (env := no_files)
         (hooks := MLExperimentConfig.base) (Some "missing.json") true self)
  = self.
Proof.
  intros self.
  apply (load_failure_leaves_container (env := no_files) (Some "missing.json")
           true self (Exception (msg_not_found "missing.json"))).
  reflexivity.
Defined.

(** ** The constructor *)

Section ConstructorFacts.
Import MLExperimentConfig ConfigFacts.
#[local] Open Scope method_scope.

Lemma lookup_set_unless_none key v (m : gmap string value) k :
  set_unless_none key v m !! k
  = if decide (k = key)
    then (if is_none v then m !! k else Some v)
    else m !! k.
Proof.
  unfold set_unless_none. destruct (decide (k = key)) as [->|Hne].
  - destruct (is_none v); [reflexivity|apply lookup_insert_eq].
  - destruct (is_none v); [reflexivity|].
    apply lookup_insert_ne. congruence.
Qed.

Context {env : Env}.

(** [__init__] without hyperparameters, step by step. *)
Lemma init_without_hyperparams f b n v fo self :
  init (hooks := base) f b n v fo None self =
  let self0 := mk (<[K_BaseName := b]> (items self)) f in
  match f with
  | None => (Ok tt, mk (set_arguments n v fo (items self0)) None)
  | Some _ =>
      match load (hooks := base) None false self0 with
      | (Ok _, self1) =>
          (Ok tt, mk (set_arguments n v fo (items self1)) (filename self1))
      | (Raise e, self1) => (Raise e, self1)
      end
  end.
Proof.
  unfold init, set_arguments, set_unless_none.
  unfold bind at 1. unfold setitem at 1.
  unfold bind at 1. unfold set_filename at 1.
  unfold bind at 1. unfold get_filename at 1.
  cbn [items filename].
  destruct f as [p|].
  - unfold bind at 1. unfold bind at 1.
    destruct (load None false _) as [[r|e] [m1 f1]]; [|reflexivity].
    unfold ret at 1.
    unfold bind, when, setitem, ret.
    destruct (is_none n), (is_none v), (is_none fo); reflexivity.
  - unfold bind, when, setitem, ret.
    destruct (is_none n), (is_none v), (is_none fo); reflexivity.
Qed.

(** The constructor when no file is read. *)
Lemma new_reads_no_file f base_name number variation fold_number :
  (forall path, f = Some path -> fs !! path = None) ->
  new (hooks := base) f base_name number variation fold_number None
  = (Ok tt,
     mk (set_arguments number variation fold_number
           {[ K_BaseName := base_name ]}) f).
Proof.
  intros Hf. unfold new. rewrite init_without_hyperparams. cbn zeta.
  cbn [items]. rewrite insert_empty.
  destruct f as [path|]; [|reflexivity].
  rewrite load_base_spec. cbn [filename items].
  now rewrite (Hf path eq_refl).
Qed.

(** The constructor when the file parses to an object. *)
Lemma new_reads_file path text d base_name number variation fold_number :
  fs !! path = Some (RegularFile text) ->
  json_loads text = Ok (JObject d) ->
  new (hooks := base) (Some path) base_name number variation fold_number None
  = (Ok tt,
     mk (set_arguments number variation fold_number
           (d ∪ {[ K_BaseName := base_name ]})) (Some path)).
Proof.
  intros Hp Hj. unfold new. rewrite init_without_hyperparams. cbn zeta.
  rewrite load_base_spec. cbn [filename items]. rewrite Hp, Hj.
  cbn [items filename]. now rewrite insert_empty.
Qed.

(** X13: built from a file that parses to an object, with no
    hyperparameters, the container holds the file's keys under the
    [number], [variation] and [fold_number] arguments: the file's base
    name, if it has one, replaces the [base_name] argument, while a
    [number] argument replaces the file's number. *)
Theorem new_from_file path text d base_name number variation fold_number :
  fs !! path = Some (RegularFile text) ->
  json_loads text = Ok (JObject d) ->
  let self' :=
    mk (set_arguments number variation fold_number
          (d ∪ {[ K_BaseName := base_name ]})) (Some path) in
  new (hooks := base) (Some path) base_name number variation fold_number None
  = (Ok tt, self')
  /\ items self' !! K_BaseName = Some (default base_name (d !! K_BaseName))
  /\ items self' !! K_Number
     = if is_none number then d !! K_Number else Some number.
Proof.
  intros Hp Hj self'. subst self'. split; [|split].
  - now apply new_reads_file with (text := text).
  - cbn [items]. unfold set_arguments.
    rewrite !lookup_set_unless_none.
    repeat (rewrite decide_False by discriminate).
    rewrite lookup_union. destruct (d !! K_BaseName); reflexivity.
  - cbn [items]. unfold set_arguments.
    rewrite !lookup_set_unless_none.
    repeat (rewrite decide_False by discriminate).
    rewrite decide_True by reflexivity.
    destruct (is_none number); [|reflexivity].
    rewrite lookup_union. destruct (d !! K_Number); reflexivity.
Qed.

(** X14: built without a file, or from the name of a file that does not
    exist, and with no hyperparameters, the constructor returns; the
    container holds [Experiment.BaseName] (possibly null) and those of the
    other three keys whose argument is not [None], and remembers the file
    name. *)
Theorem new_without_file f base_name number variation fold_number :
  (forall path, f = Some path -> fs !! path = None) ->
  new (hooks := base) f base_name number variation fold_number None
  = (Ok tt,
     mk (set_arguments number variation fold_number
           {[ K_BaseName := base_name ]}) f).
Proof. apply new_reads_no_file. Qed.

(** X15: on a container built from arguments alone, with a base name and
    a number that are not [None], the [experiment_code] property is what
    [get_experiment_code_ex] gives on the same arguments, exceptions of the
    integer coercions included. *)
Theorem experiment_code_of_new f base_name number variation fold_number :
  (forall path, f = Some path -> fs !! path = None) ->
  base_name <> VNone -> number <> VNone ->
  fst (experiment_code
         (snd (new (hooks := base) f base_name number variation fold_number
                 None)))
  = get_experiment_code_ex base_name number variation fold_number.
Proof.
  intros Hf Hb Hn. rewrite (new_reads_no_file _ _ _ _ _ Hf).
  unfold experiment_code. cbn [fst snd items].
  set (m := set_arguments number variation fold_number
              {[ K_BaseName := base_name ]}).
  assert (Eb : is_none base_name = false) by now destruct base_name.
  assert (En : is_none number = false) by now destruct number.
  assert (H1 : m !! K_BaseName = Some base_name).
  { unfold m, set_arguments. rewrite !lookup_set_unless_none.
    repeat (rewrite decide_False by discriminate). apply lookup_singleton_eq. }
  assert (H2 : m !! K_Number = Some number).
  { unfold m, set_arguments. rewrite !lookup_set_unless_none.
    repeat (rewrite decide_False by discriminate).
    rewrite decide_True by reflexivity. now rewrite En. }
  assert (H3 : m !! K_Variation
               = if is_none variation then None else Some variation).
  { unfold m, set_arguments. rewrite !lookup_set_unless_none.
    repeat (rewrite decide_False by discriminate).
    rewrite decide_True by reflexivity.
    destruct (is_none variation); [|reflexivity].
    rewrite decide_False by discriminate.
    apply lookup_singleton_ne. discriminate. }
  assert (H4 : m !! K_FoldNumber
               = if is_none fold_number then None else Some fold_number).
  { unfold m, set_arguments. rewrite !lookup_set_unless_none.
    rewrite decide_True by reflexivity.
    destruct (is_none fold_number); [|reflexivity].
    repeat (rewrite decide_False by discriminate).
    apply lookup_singleton_ne. discriminate. }
  unfold get_experiment_code, get_experiment_code_ex.
  rewrite (dict_contains_Some _ _ _ H1), (dict_contains_Some _ _ _ H2),
    (dict_getitem_Some _ _ _ H1), (dict_getitem_Some _ _ _ H2), Eb, En.
  cbn [andb negb rbind].
  destruct (py_int number) as [nNumber|e]; [|reflexivity]. cbn [rbind].
  destruct (is_none variation) eqn:Ev, (is_none fold_number) eqn:Ef;
    rewrite ?(dict_contains_None _ _ H3), ?(dict_contains_None _ _ H4),
      ?(dict_contains_Some _ _ _ H3), ?(dict_contains_Some _ _ _ H4),
      ?(dict_getitem_Some _ _ _ H3), ?(dict_getitem_Some _ _ _ H4);
    cbn [negb rbind]; try reflexivity;
    destruct (py_int fold_number); reflexivity.
Qed.

End ConstructorFacts.

Lemma new_from_file_witness :
  let built :=
    MLExperimentConfig.new (env := sample_files)
      (hooks := MLExperimentConfig.base) (Some "configs/Model_03.json")
      (VStr "Model") (VInt 4) VNone VNone None in
  fst built = Ok tt
  /\ MLExperimentConfig.items (snd built) !! K_Number = Some (VInt 4)
  /\ MLExperimentConfig.items (snd built) !! "Epochs" = Some (VInt 10).
Proof.
  intros built. subst built.
  destruct (new_from_file (env := sample_files) "configs/Model_03.json"
              sample_text {[ K_Number := VInt 3; "Epochs" := VInt 10 ]}
              (VStr "Model") (VInt 4) VNone VNone) as (Hnew & _ & Hnum).
  - reflexivity.
  - reflexivity.
  - rewrite Hnew. cbn [fst snd]. split; [reflexivity|].
    split; [exact Hnum|reflexivity].
Defined.

Lemma new_without_file_witness :
  MLExperimentConfig.new (env := no_files) (hooks := MLExperimentConfig.base)
    (Some "later.json") VNone (VInt 2) (VStr "b") VNone None
  = (Ok tt,
     MLExperimentConfig.mk
       {[ K_BaseName := VNone; K_Number := VInt 2; K_Variation := VStr "b" ]}
       (Some "later.json")).
Proof.
  rewrite (new_without_file (env := no_files)).
  - reflexivity.
  - intros path _. reflexivity.
Defined.

Lemma experiment_code_of_new_witness :
  fst (MLExperimentConfig.experiment_code
         (snd (MLExperimentConfig.new (env := no_files)
                 (hooks := MLExperimentConfig.base)
                 None (VStr "Model") (VStr "3") (VStr "b") (VInt 2) None)))
  = Ok "Model_03.b-02".
Proof.
  rewrite (experiment_code_of_new (env := no_files)).
  - reflexivity.
  - discriminate.
  - discriminate.
  - discriminate.
Defined.

(** ** Saving *)

Section SaveFacts.
Import MLExperimentConfig ConfigFacts Persist.
Context {writer : Writer}.

(** [save] on a path that can be written. *)
Lemma save_writes path self (disk : gmap string node) :
  disk !! path <> Some Directory -> writable path = true ->
  let self1 := mk (items self) (Some path) in
  save (Some path) self disk
  = (Ok self1, self1,
     <[path := RegularFile (json_dumps (items self))]> disk).
Proof.
  intros Hdir Hw. unfold save. cbn [filename items].
  destruct (disk !! path) as [[text|]|]; rewrite ?Hw; try reflexivity.
  now destruct Hdir.
Qed.

(** What [load] merges from the file that [save] wrote. *)
Lemma load_saved {env : Env} path (m : gmap string value)
  (disk : gmap string node) must_exist other :
  json_loads (json_dumps m) = Ok (JObject m) ->
  let other' := mk (m ∪ items other) (filename other) in
  load (env := on_disk env (<[path := RegularFile (json_dumps m)]> disk))
    (hooks := base) (Some path) must_exist other
  = (Ok other', other').
Proof.
  intros Hj. rewrite load_base_spec. cbn [fs json_loads on_disk].
  rewrite lookup_insert_eq. cbn [fs json_loads on_disk]. now rewrite Hj.
Qed.

(** X16: a container that holds [Experiment.BaseName], saved to a
    writable path and built anew from that path alone, comes back as the
    same container (same mapping, the path as file name), provided
    [json.loads] reads back what [json.dumps] wrote. *)
Theorem save_then_new {env : Env} path self (disk : gmap string node) :
  disk !! path <> Some Directory -> writable path = true ->
  json_loads (json_dumps (items self)) = Ok (JObject (items self)) ->
  has_base_name self ->
  let self1 := mk (items self) (Some path) in
  let disk' := <[path := RegularFile (json_dumps (items self))]> disk in
  save (Some path) self disk = (Ok self1, self1, disk')
  /\ new (env := on_disk env disk') (hooks := base)
       (Some path) VNone VNone VNone VNone None
     = (Ok tt, self1).
Proof.
  intros Hdir Hw Hj [b Hb] self1 disk'. split; [now apply save_writes|].
  rewrite (new_reads_file (env := on_disk env disk') path
             (json_dumps (items self)) (items self));
    [|apply lookup_insert_eq|exact Hj].
  unfold self1, set_arguments, set_unless_none. cbn [is_none].
  do 2 f_equal. apply map_eq. intros k. rewrite lookup_union.
  destruct (decide (k = K_BaseName)) as [->|Hne].
  - now rewrite Hb.
  - rewrite lookup_singleton_ne by congruence.
    now destruct (items self !! k).
Qed.

(** X17: [save] never changes the mapping of the container and changes
    no path on disk other than the file name the container ends up with;
    when it returns, that file holds [json.dumps] of the mapping, and a
    directory is never replaced. *)
Theorem save_touches_one_file filename self (disk : gmap string node) :
  let out := save filename self disk in
  items (snd (fst out)) = items self
  /\ (forall q, MLExperimentConfig.filename (snd (fst out)) <> Some q ->
        snd out !! q = disk !! q)
  /\ (forall self', fst (fst out) = Ok self' ->
        exists path,
          MLExperimentConfig.filename (snd (fst out)) = Some path
          /\ snd out !! path = Some (RegularFile (json_dumps (items self))))
  /\ (forall q, disk !! q = Some Directory -> snd out !! q = Some Directory).
Proof.
  unfold save.
  set (self1 := match filename with
                | Some f => mk (items self) (Some f)
                | None => self
                end).
  assert (H1 : items self1 = items self) by (unfold self1; now destruct filename).
  rewrite H1.
  destruct (MLExperimentConfig.filename self1) as [path|] eqn:Hf.
  - destruct (disk !! path) as [[text|]|] eqn:Hp;
      [destruct (writable path); [|destruct (opens path)]
      |
      |destruct (writable path); [|destruct (opens path)]];
      cbn [fst snd]; rewrite ?Hf;
      (split; [exact H1|split; [|split]]);
      try (intros q Hq; first [reflexivity | apply lookup_insert_ne; congruence]);
      try discriminate;
      try (intros self' _; exists path; split;
           [reflexivity|apply lookup_insert_eq]);
      try (intros q Hq; first [exact Hq | rewrite lookup_insert_ne; congruence]).
  - cbn [fst snd]. split; [exact H1|].
    split; [intros; reflexivity|]. split; [discriminate|]. intros q Hq. exact Hq.
Qed.

(** X18: [save_config] without a name stores the container under its
    experiment code, [{code}.json] as the folder names it, and
    [load_config] with that code then merges the saved mapping into a
    container (provided [json.loads] reads back what [json.dumps]
    wrote). *)
Theorem save_config_then_load_config {env : Env} fs_arg self code
  (disk : gmap string node) other :
  get_experiment_code (items self) = Ok code ->
  let path := file (configs_of fs_arg) (code +:+ ".json") in
  disk !! path <> Some Directory -> writable path = true ->
  json_loads (json_dumps (items self)) = Ok (JObject (items self)) ->
  let self1 := mk (items self) (Some path) in
  let disk' := <[path := RegularFile (json_dumps (items self))]> disk in
  let other' := mk (items self ∪ items other) (filename other) in
  save_config fs_arg None self disk = (Ok self1, self1, disk')
  /\ load_config (env := on_disk env disk') (hooks := base) fs_arg code other
     = (Ok other', other').
Proof.
  intros Hcode path Hdir Hw Hj self1 disk' other'. split.
  - unfold save_config. rewrite Hcode. now apply save_writes.
  - unfold load_config. now apply load_saved.
Qed.

(** X19: [save_config] without a name, on a container that lacks
    [Experiment.BaseName] or [Experiment.Number], raises the exception of
    [get_experiment_code]; nothing is written and the container keeps its
    file name. *)
Theorem save_config_needs_code fs_arg self (disk : gmap string node) :
  items self !! K_BaseName = None \/ items self !! K_Number = None ->
  save_config fs_arg None self disk
  = (Raise (Exception msg_invalid_configuration), self, disk).
Proof.
  intros H. unfold save_config, get_experiment_code.
  destruct H as [H|H]; rewrite (dict_contains_None _ _ H), ?andb_false_r;
    reflexivity.
Qed.

End SaveFacts.

Lemma save_then_new_witness :
  let self := MLExperimentConfig.mk saved_items None in
  MLExperimentConfig.new
    (env := Persist.on_disk sample_reader
              (snd (Persist.save (writer := sample_writer)
                      (Some "configs/Model_03.json") self ∅)))
    (hooks := MLExperimentConfig.base)
    (Some "configs/Model_03.json") VNone VNone VNone VNone None
  = (Ok tt, MLExperimentConfig.mk saved_items (Some "configs/Model_03.json")).
Proof.
  intros self.
  destruct (save_then_new (writer := sample_writer) (env := sample_reader)
              "configs/Model_03.json" self ∅) as [Hsave Hnew].
  - discriminate.
  - reflexivity.
  - reflexivity.
  - exists (VStr "Model"). reflexivity.
  - rewrite Hsave. exact Hnew.
Defined.

Lemma save_config_then_load_config_witness :
  let self := MLExperimentConfig.mk saved_items None in
  let disk' :=
    snd (Persist.save_config (writer := sample_writer)
           (AFileSystem configs_folder) None self ∅) in
  disk' !! "configs/Model_03.json" = Some (RegularFile saved_text)
  /\ MLExperimentConfig.items
       (snd (Persist.load_config (env := Persist.on_disk sample_reader disk')
               (hooks := MLExperimentConfig.base)
               (AFileSystem configs_folder) "Model_03"
               (MLExperimentConfig.mk {[ "Epochs" := VInt 5 ]} None)))
     !! K_Number = Some (VInt 3).
Proof.
  intros self disk'. subst disk'.
  destruct (save_config_then_load_config (writer := sample_writer)
              (env := sample_reader) (AFileSystem configs_folder) self
              "Model_03" ∅ (MLExperimentConfig.mk {[ "Epochs" := VInt 5 ]} None))
    as [Hsave Hload].
  - reflexivity.
  - discriminate.
  - reflexivity.
  - reflexivity.
  - rewrite Hsave. cbn [snd]. split; [reflexivity|].
    rewrite Hload. reflexivity.
Defined.

Lemma save_config_needs_code_witness :
  Persist.save_config (writer := sample_writer) (AFolder configs_folder) None
    (MLExperimentConfig.mk {[ K_BaseName := VStr "M" ]} (Some "old.json")) ∅
  = (Raise (Exception msg_invalid_configuration),
     MLExperimentConfig.mk {[ K_BaseName := VStr "M" ]} (Some "old.json"), ∅).
Proof.
  apply (save_config_needs_code (writer := sample_writer)). right. reflexivity.
Defined.

(** ** What a code does not tell *)

(** X20: the canonical code does not tell a fold number from a variation
    that ends in [-NN]: variation [v] with fold number [k] and variation
    [v-kk] without a fold number get the same code. *)
Theorem code_confuses_fold_and_variation base_name number v k :
  get_experiment_code_ex (VStr base_name) (VInt number)
    (VStr (v +:+ "-" +:+ PyInt.format_0d 2 k)) VNone
  = get_experiment_code_ex (VStr base_name) (VInt number) (VStr v) (VInt k).
Proof.
  unfold get_experiment_code_ex.
  cbn [is_none negb andb py_int rbind py_str]. f_equal. now norm_app.
Qed.
